(** * M5StickCPlus2.ino: the sample / batch / upload / recover loop

    A shallow embedding of the sketch [M5StickCPlus2.ino]: its global
    variables, [setup] and [loop], over a small monad that threads the
    globals, records the calls made to the board and to the libraries, and
    stops at [ESP.restart()] and at [while (true) {}]. *)

From Stdlib Require Import ZArith List Bool String DecimalString Lia.
From Stdlib Require Import Floats.SpecFloat.
Import ListNotations.

Local Open Scope Z_scope.

(** ** Numbers *)

(** C [float] on the ESP32 is IEEE binary32.  [spec_float] carries no
    format; the operations take the precision and the exponent bound. *)
Module F32.
Definition prec : Z := 24.
Definition emax : Z := 128.

(** Conversion of an [int] operand to [float] (round to nearest even). *)
Definition of_int (z : Z) : spec_float := binary_normalize prec emax z 0 false.

Definition div (x y : spec_float) : spec_float := SFdiv prec emax x y.
Definition ltb (x y : spec_float) : bool := SFltb x y.

(** Mantissa times a power of two, rounded once into the format: the
    value a decimal literal or a sensor register denotes. *)
Definition make (m e : Z) : spec_float := binary_normalize prec emax m e false.
End F32.

(** C [double] is IEEE binary64; [addSample] takes its value as a double. *)
Module F64.
Definition prec : Z := 53.
Definition emax : Z := 1024.

Definition of_int (z : Z) : spec_float := binary_normalize prec emax z 0 false.

(** The implicit widening [float] to [double]: the same number, with the
    mantissa and exponent of the wider format. *)
Definition of_float (f : spec_float) : spec_float :=
  match f with
  | S754_finite s m e => binary_normalize prec emax (cond_Zopp s (Zpos m)) e s
  | _ => f
  end.
End F64.

(** [int] is 32 bits wide; an addition that leaves the range wraps. *)
Definition INT_MAX : Z := 2147483647.
Definition INT_MIN : Z := -2147483648.
Definition wrap_int (z : Z) : Z := (z + 2147483648) mod 4294967296 - 2147483648.

(** ** The Prometheus client library's data *)

Record Sample := mkSample { tsMillis : Z; val : spec_float }.

(** Modelled from the spec: [TimeSeries] is declared in PrometheusArduino.h,
    which is not among the sources.  A series has a name, a label set, a
    batch capacity (the constructor's first argument) and the samples
    appended since the last reset, oldest first. *)
Record TimeSeries := mkTimeSeries {
  batchSize : nat;
  name : string;
  labels : string;
  batch : list Sample
}.

(** Modelled from the spec: [TimeSeries::addSample] appends one sample; a
    series that already holds [batchSize] samples refuses and is unchanged. *)
Definition addSample (ts : TimeSeries) (t : Z) (v : spec_float) : bool * TimeSeries :=
  if (batchSize ts <=? List.length (batch ts))%nat then (false, ts)
  else (true, mkTimeSeries (batchSize ts) (name ts) (labels ts)
                (batch ts ++ [mkSample t v])).

(** Modelled from the spec: [TimeSeries::resetSamples] empties the sample
    sequence and keeps name, labels and capacity. *)
Definition resetSamples (ts : TimeSeries) : TimeSeries :=
  mkTimeSeries (batchSize ts) (name ts) (labels ts) [].

(** The address of one of the six global series objects: the write request
    keeps addresses, not copies. *)
Inductive SeriesRef :=
| Ref_temperature
| Ref_humidity
| Ref_pressure
| Ref_bat_volt
| Ref_bat_current
| Ref_bat_level.

(** Modelled from the spec: [WriteRequest] is declared in
    PrometheusArduino.h.  It is built for at most [numSeries] series and
    keeps the registered ones in registration order. *)
Record WriteRequest := mkWriteRequest {
  numSeries : nat;
  bufferSize : nat;
  series : list SeriesRef
}.

(** Modelled from the spec: [WriteRequest::addTimeSeries] registers one more
    series at the end, unless the request is already full. *)
Definition addTimeSeries (r : WriteRequest) (s : SeriesRef) : bool * WriteRequest :=
  if (numSeries r <=? List.length (series r))%nat then (false, r)
  else (true, mkWriteRequest (numSeries r) (bufferSize r) (series r ++ [s])).

(** ** Configuration, globals, observable calls *)

(** The macros of config.h, which is not among the sources. *)
Record Config := mkConfig {
  YOUR_NAME : string;
  PROM_LABELS : string;
  LCD_SHOW_DEBUG_INFO : string
}.

(** The global variables of the sketch. *)
Record Globals := mkGlobals {
  temp : spec_float;
  hum : spec_float;
  pressure : spec_float;
  upload_fail_count : Z;
  req : WriteRequest;
  ts_m5stick_temperature : TimeSeries;
  ts_m5stick_humidity : TimeSeries;
  ts_m5stick_pressure : TimeSeries;
  ts_m5stick_bat_volt : TimeSeries;
  ts_m5stick_bat_current : TimeSeries;
  ts_m5stick_bat_level : TimeSeries
}.

(** The object behind an address. *)
Definition deref (g : Globals) (r : SeriesRef) : TimeSeries :=
  match r with
  | Ref_temperature => ts_m5stick_temperature g
  | Ref_humidity => ts_m5stick_humidity g
  | Ref_pressure => ts_m5stick_pressure g
  | Ref_bat_volt => ts_m5stick_bat_volt g
  | Ref_bat_current => ts_m5stick_bat_current g
  | Ref_bat_level => ts_m5stick_bat_level g
  end.

Definition all_refs : list SeriesRef :=
  [Ref_temperature; Ref_humidity; Ref_pressure;
   Ref_bat_volt; Ref_bat_current; Ref_bat_level].

Inductive Color := ORANGE | BLACK | WHITE | GREEN | RED.

Inductive Arg :=
| AFloat (f : spec_float)
| AInt (z : Z)
| AStr (s : string).

(** One call that leaves the sketch.  Format strings are kept as the source
    spells them, escapes unexpanded. *)
Inductive Event :=
| Display_setRotation (r : Z)
| Display_setTextSize (n : Z)
| Display_setCursor (x y : Z)
| Display_setTextColor (fg bg : Color)
| Display_printf (fmt : string) (args : list Arg)
| Display_clear
| Serial_println (s : string)
| Serial_printf (fmt : string) (args : list Arg)
| client_send (sent : list TimeSeries) (res : Z)
| delay (ms : Z).

(** ** The monad of the sketch *)

(** A computation either returns with new globals, or never returns: the
    chip was reset by [ESP.restart()], or control sits in [while (true) {}].
    Each case carries the calls made so far. *)
Inductive Outcome (A : Type) :=
| Ret (a : A) (g : Globals) (tr : list Event)
| Restart (tr : list Event)
| Hang (tr : list Event).
Arguments Ret {A} a g tr.
Arguments Restart {A} tr.
Arguments Hang {A} tr.

Definition M (A : Type) : Type := Globals -> Outcome A.

Definition ret {A} (a : A) : M A := fun g => Ret a g [].

Definition bind {A B} (m : M A) (f : A -> M B) : M B :=
  fun g =>
    match m g with
    | Ret a g1 t1 =>
        match f a g1 with
        | Ret b g2 t2 => Ret b g2 (t1 ++ t2)
        | Restart t2 => Restart (t1 ++ t2)
        | Hang t2 => Hang (t1 ++ t2)
        end
    | Restart t1 => Restart t1
    | Hang t1 => Hang t1
    end.

Declare Scope sketch_scope.
Delimit Scope sketch_scope with sketch.
Notation "x <- m ;; k" := (bind m (fun x => k))
  (at level 61, m at next level, right associativity) : sketch_scope.
Notation "m ;; k" := (bind m (fun _ => k))
  (at level 61, right associativity) : sketch_scope.
Local Open Scope sketch_scope.

Definition get : M Globals := fun g => Ret g g [].
Definition emit (e : Event) : M unit := fun g => Ret tt g [e].
Definition ESP_restart {A} : M A := fun _ => Restart [].
Definition while_true {A} : M A := fun _ => Hang [].
Definition when (b : bool) (m : M unit) : M unit := if b then m else ret tt.

Definition modify (f : Globals -> Globals) : M unit := fun g => Ret tt (f g) [].

Definition with_sensors (t h p : spec_float) (g : Globals) : Globals :=
  mkGlobals t h p (upload_fail_count g) (req g)
    (ts_m5stick_temperature g) (ts_m5stick_humidity g) (ts_m5stick_pressure g)
    (ts_m5stick_bat_volt g) (ts_m5stick_bat_current g) (ts_m5stick_bat_level g).

Definition set_temp (v : spec_float) : M unit :=
  modify (fun g => with_sensors v (hum g) (pressure g) g).
Definition set_hum (v : spec_float) : M unit :=
  modify (fun g => with_sensors (temp g) v (pressure g) g).
Definition set_pressure (v : spec_float) : M unit :=
  modify (fun g => with_sensors (temp g) (hum g) v g).

Definition with_count (c : Z) (g : Globals) : Globals :=
  mkGlobals (temp g) (hum g) (pressure g) c (req g)
    (ts_m5stick_temperature g) (ts_m5stick_humidity g) (ts_m5stick_pressure g)
    (ts_m5stick_bat_volt g) (ts_m5stick_bat_current g) (ts_m5stick_bat_level g).

Definition with_req (q : WriteRequest) (g : Globals) : Globals :=
  mkGlobals (temp g) (hum g) (pressure g) (upload_fail_count g) q
    (ts_m5stick_temperature g) (ts_m5stick_humidity g) (ts_m5stick_pressure g)
    (ts_m5stick_bat_volt g) (ts_m5stick_bat_current g) (ts_m5stick_bat_level g).

Definition set_upload_fail_count (v : Z) : M unit := modify (with_count v).

Definition set_req (q : WriteRequest) : M unit := modify (with_req q).

(** Write through an address. *)
Definition assign (r : SeriesRef) (ts : TimeSeries) (g : Globals) : Globals :=
  let pick r' := match r, r' with
                 | Ref_temperature, Ref_temperature
                 | Ref_humidity, Ref_humidity
                 | Ref_pressure, Ref_pressure
                 | Ref_bat_volt, Ref_bat_volt
                 | Ref_bat_current, Ref_bat_current
                 | Ref_bat_level, Ref_bat_level => ts
                 | _, _ => deref g r'
                 end in
  mkGlobals (temp g) (hum g) (pressure g) (upload_fail_count g) (req g)
    (pick Ref_temperature) (pick Ref_humidity) (pick Ref_pressure)
    (pick Ref_bat_volt) (pick Ref_bat_current) (pick Ref_bat_level).

Definition set_series (r : SeriesRef) (ts : TimeSeries) : M unit := modify (assign r ts).

(** [ts.addSample(time, v)] on a global series. *)
Definition ts_addSample (r : SeriesRef) (t : Z) (v : spec_float) : M bool :=
  g <- get ;;
  let done := addSample (deref g r) t v in
  set_series r (snd done) ;;
  ret (fst done).

(** [ts.resetSamples()] on a global series. *)
Definition ts_resetSamples (r : SeriesRef) : M unit :=
  g <- get ;;
  set_series r (resetSamples (deref g r)).

(** [req.addTimeSeries(ts)]. *)
Definition req_addTimeSeries (r : SeriesRef) : M bool :=
  g <- get ;;
  let done := addTimeSeries (req g) r in
  set_req (snd done) ;;
  ret (fst done).

(** ** What the board and the libraries answer *)

(** The answers [setup] receives. *)
Record SetupEnv := mkSetupEnv {
  qmp6988_begin : bool;
  sht30_begin : bool;
  transport_begin : bool;
  transport_errmsg : string;
  client_begin : bool;
  client_errmsg : string
}.

(** The answers one run of [loop] receives.  [qmp6988_update] is [Some p]
    when [qmp6988.update()] is true and [calcPressure()] yields [p];
    [sht30_update] is [Some (cTemp, humidity)] when [sht30.update()] is true.
    [send] is what [client.send] answers for the request it is handed. *)
Record LoopEnv := mkLoopEnv {
  getTimeMillis : Z;
  qmp6988_update : option spec_float;
  sht30_update : option (spec_float * spec_float);
  getBatteryVoltage : Z;
  getBatteryCurrent : Z;
  getBatteryLevel : Z;
  send : list TimeSeries -> Z;
  WiFi_connected : bool
}.

(** [String(n)] for an [int]. *)
Definition String_of_int (n : Z) : string :=
  NilZero.string_of_int (Z.to_int n).

(** ** The sketch *)

Section Sketch.
Variable cfg : Config.

(** The globals as their initialisers leave them. *)
Definition boot_globals : Globals :=
  mkGlobals (S754_zero false) (S754_zero false) (S754_zero false)
    0
    (mkWriteRequest 11 2048 [])
    (mkTimeSeries 1 "m5stick_temp" (PROM_LABELS cfg) [])
    (mkTimeSeries 1 "m5stick_hum" (PROM_LABELS cfg) [])
    (mkTimeSeries 1 "m5stick_pressure" (PROM_LABELS cfg) [])
    (mkTimeSeries 1 "m5stick_bat_volt" (PROM_LABELS cfg) [])
    (mkTimeSeries 1 "m5stick_bat_current" (PROM_LABELS cfg) [])
    (mkTimeSeries 1 "m5stick_bat_level" (PROM_LABELS cfg) []).

(** [setup()].  The setters of [transport] and [client] only configure
    those objects and are left out. *)
Definition setup (env : SetupEnv) : M unit :=
  emit (Display_setRotation 3) ;;
  emit (Display_setTextSize 2) ;;
  emit (Display_setCursor 10 10) ;;
  emit (Display_setTextColor ORANGE BLACK) ;;
  emit (Display_printf "== Grafana Labs ==" []) ;;
  emit (Display_setTextColor WHITE BLACK) ;;
  when (negb (qmp6988_begin env))
    (emit (Serial_println "Couldn't find QMP6988")) ;;
  when (negb (sht30_begin env))
    (emit (Serial_println "Couldn't find SHT3X")) ;;
  emit (Display_setCursor 10 30) ;;
  emit (Display_printf "Hello, %s" [AStr (YOUR_NAME cfg)]) ;;
  emit (Display_setCursor 10 60) ;;
  emit (Display_printf "Please wait:\r\n Connecting to WiFi" []) ;;
  when (negb (transport_begin env))
    (emit (Serial_println (transport_errmsg env)) ;;
     while_true) ;;
  emit (Display_setCursor 10 105) ;;
  emit (Display_setTextColor GREEN BLACK) ;;
  emit (Display_printf "Connected!" []) ;;
  emit (delay 1500) ;;
  when (negb (client_begin env))
    (emit (Serial_println (client_errmsg env)) ;;
     while_true) ;;
  _ <- req_addTimeSeries Ref_temperature ;;
  _ <- req_addTimeSeries Ref_humidity ;;
  _ <- req_addTimeSeries Ref_pressure ;;
  _ <- req_addTimeSeries Ref_bat_volt ;;
  _ <- req_addTimeSeries Ref_bat_current ;;
  _ <- req_addTimeSeries Ref_bat_level ;;
  ret tt.

(** [client.send(req)]: the client walks the request's series in order
    and reads each through its address. *)
Definition client_send_req (env : LoopEnv) : M Z :=
  g <- get ;;
  let sent := map (deref g) (series (req g)) in
  let res := send env sent in
  emit (client_send sent res) ;;
  ret res.

(** [LCD_SHOW_DEBUG_INFO == "1"], read as the comparison of the two
    literals' text. *)
Definition show_debug_info : bool := String.eqb (LCD_SHOW_DEBUG_INFO cfg) "1".

(** [loop()]. *)
Definition loop (env : LoopEnv) : M unit :=
  let time := getTimeMillis env in
  emit (Serial_printf "\r\n====================================\r\n" []) ;;
  match qmp6988_update env with
  | Some p => set_pressure p
  | None => ret tt
  end ;;
  match sht30_update env with
  | Some (cTemp, humidity) => set_temp cTemp ;; set_hum humidity
  | None => set_temp (F32.of_int 0) ;; set_hum (F32.of_int 0)
  end ;;
  g <- get ;;
  when (F32.ltb (pressure g) (F32.of_int 950)) ESP_restart ;;
  when (F32.ltb (F32.of_int 1200) (F32.div (pressure g) (F32.of_int 100))) ESP_restart ;;
  emit (Serial_printf "Temp: %2.1f °C \r\nHumidity: %2.0f%%  \r\nPressure:%2.0f hPa\r\n\n"
          [AFloat (temp g); AFloat (hum g);
           AFloat (F32.div (pressure g) (F32.of_int 100))]) ;;
  let bat_volt := getBatteryVoltage env in
  emit (Serial_printf "Battery Volt: %dmv \n" [AInt bat_volt]) ;;
  let bat_current := getBatteryCurrent env in
  emit (Serial_printf "Battery Current: %dmv \n" [AInt bat_current]) ;;
  let bat_level := getBatteryLevel env in
  emit (Serial_printf "Battery Level: %d% \n\n" [AInt bat_level]) ;;
  _ <- ts_addSample Ref_temperature time (F64.of_float (temp g)) ;;
  _ <- ts_addSample Ref_humidity time (F64.of_float (hum g)) ;;
  _ <- ts_addSample Ref_pressure time (F64.of_float (pressure g)) ;;
  _ <- ts_addSample Ref_bat_volt time (F64.of_int bat_volt) ;;
  _ <- ts_addSample Ref_bat_current time (F64.of_int bat_current) ;;
  _ <- ts_addSample Ref_bat_level time (F64.of_int bat_level) ;;
  res <- client_send_req env ;;
  ts_resetSamples Ref_temperature ;;
  ts_resetSamples Ref_humidity ;;
  ts_resetSamples Ref_pressure ;;
  ts_resetSamples Ref_bat_volt ;;
  ts_resetSamples Ref_bat_current ;;
  ts_resetSamples Ref_bat_level ;;
  emit Display_clear ;;
  emit (Display_setTextSize 2) ;;
  emit (Display_setCursor 10 10) ;;
  emit (Display_setTextColor ORANGE BLACK) ;;
  emit (Display_printf "== Grafana Labs ==" []) ;;
  emit (Display_setTextColor WHITE BLACK) ;;
  emit (Display_setCursor 0 40) ;;
  emit (Display_printf "  Temp: %2.1f  \r\n  Humi: %2.0f%%  \r\n  Pressure:%2.0f hPa\r\n"
          [AFloat (temp g); AFloat (hum g);
           AFloat (F32.div (pressure g) (F32.of_int 100))]) ;;
  when show_debug_info
    (emit (Display_setCursor 0 92) ;;
     (if negb (WiFi_connected env) then
        emit (Display_setTextColor WHITE BLACK) ;;
        emit (Display_printf "  Wifi: " []) ;;
        emit (Display_setTextColor RED BLACK) ;;
        emit (Display_printf "Not connected!" [])
      else
        emit (Display_printf "  Wifi: " []) ;;
        emit (Display_setTextColor GREEN BLACK) ;;
        emit (Display_printf "Connected" [])) ;;
     emit (Display_setCursor 0 110) ;;
     (if res =? 0 then
        set_upload_fail_count 0 ;;
        emit (Display_setTextColor WHITE BLACK) ;;
        emit (Display_printf "  Upload " []) ;;
        emit (Display_setTextColor GREEN BLACK) ;;
        emit (Display_printf "complete" [])
      else
        c <- get ;;
        set_upload_fail_count (wrap_int (upload_fail_count c + 1)) ;;
        c <- get ;;
        emit (Display_setTextColor WHITE BLACK) ;;
        emit (Display_printf "  Upload " []) ;;
        emit (Display_setTextColor RED BLACK) ;;
        emit (Display_printf "failed: %s" [AStr (String_of_int (upload_fail_count c))]))) ;;
  emit (delay 5000).
End Sketch.

(** ** The process *)

(** [loop()] called once per element of [envs], in order, as long as the
    calls return. *)
Fixpoint cycles (cfg : Config) (envs : list LoopEnv) : M unit :=
  match envs with
  | [] => ret tt
  | env :: rest => loop cfg env ;; cycles cfg rest
  end.

(** Where control is: before [setup()], inside [while (true) {}], or between
    two calls of [loop()] with the globals as they stand. *)
Inductive Phase :=
| Booting
| Halted
| Looping (g : Globals).

(** What the outside answers during one step of the process; only the part
    for the function that runs is consulted. *)
Record Tick := mkTick { at_setup : SetupEnv; at_loop : LoopEnv }.

Definition phase_of (o : Outcome unit) : Phase * list Event :=
  match o with
  | Ret _ g tr => (Looping g, tr)
  | Restart tr => (Booting, tr)
  | Hang tr => (Halted, tr)
  end.

(** Modelled from the spec: the Arduino core's main task is not among the
    sources.  It calls [setup()] once and then [loop()] again and again; a
    reset starts over from the initialisers; an endless empty loop stays
    where it is. *)
Definition step (cfg : Config) (ph : Phase) (w : Tick) : Phase * list Event :=
  match ph with
  | Booting => phase_of (setup cfg (at_setup w) (boot_globals cfg))
  | Halted => (Halted, [])
  | Looping g => phase_of (loop cfg (at_loop w) g)
  end.

Fixpoint run (cfg : Config) (ws : list Tick) (ph : Phase) : Phase * list Event :=
  match ws with
  | [] => (ph, [])
  | w :: rest =>
      let (ph1, t1) := step cfg ph w in
      let (ph2, t2) := run cfg rest ph1 in
      (ph2, t1 ++ t2)
  end.

(** ** The phases of one cycle, in closed form *)

(** Lines 123 to 131: the globals after the two sensor reads. *)
Definition sense (env : LoopEnv) (g : Globals) : Globals :=
  with_sensors
    (match sht30_update env with Some (t, _) => t | None => F32.of_int 0 end)
    (match sht30_update env with Some (_, h) => h | None => F32.of_int 0 end)
    (match qmp6988_update env with Some p => p | None => pressure g end)
    g.

(** Lines 132 and 133: the two tests that lead to [ESP.restart()]. *)
Definition anomalous (p : spec_float) : bool :=
  F32.ltb p (F32.of_int 950)
  || F32.ltb (F32.of_int 1200) (F32.div p (F32.of_int 100)).

Definition add_to (r : SeriesRef) (t : Z) (v : spec_float) (g : Globals) : Globals :=
  assign r (snd (addSample (deref g r) t v)) g.

(** The value handed to [addSample] for each series. *)
Definition sample_value (env : LoopEnv) (g : Globals) (r : SeriesRef) : spec_float :=
  match r with
  | Ref_temperature => F64.of_float (temp g)
  | Ref_humidity => F64.of_float (hum g)
  | Ref_pressure => F64.of_float (pressure g)
  | Ref_bat_volt => F64.of_int (getBatteryVoltage env)
  | Ref_bat_current => F64.of_int (getBatteryCurrent env)
  | Ref_bat_level => F64.of_int (getBatteryLevel env)
  end.

(** Lines 147 to 153. *)
Definition append_all (env : LoopEnv) (g : Globals) : Globals :=
  fold_left (fun g' r => add_to r (getTimeMillis env) (sample_value env g r) g')
            all_refs g.

Definition reset_in (r : SeriesRef) (g : Globals) : Globals :=
  assign r (resetSamples (deref g r)) g.

(** Lines 157 to 162. *)
Definition clear_all (g : Globals) : Globals :=
  fold_left (fun g' r => reset_in r g') all_refs g.

(** Lines 192 to 199: the counter after a send that answered [res]. *)
Definition tally (c res : Z) : Z := if res =? 0 then 0 else wrap_int (c + 1).

(** What [client.send] is handed in a cycle started in [g]. *)
Definition loop_sent (env : LoopEnv) (g : Globals) : list TimeSeries :=
  let g2 := append_all env (sense env g) in
  map (deref g2) (series (req g2)).

Definition loop_res (env : LoopEnv) (g : Globals) : Z := send env (loop_sent env g).

(** The globals at the end of a cycle that was not cut short. *)
Definition loop_end (cfg : Config) (env : LoopEnv) (g : Globals) : Globals :=
  let g3 := clear_all (append_all env (sense env g)) in
  if show_debug_info cfg
  then with_count (tally (upload_fail_count g) (loop_res env g)) g3
  else g3.

Definition banner : Event :=
  Serial_printf "\r\n====================================\r\n" [].

Definition serial_report (env : LoopEnv) (g : Globals) : list Event :=
  [Serial_printf "Temp: %2.1f °C \r\nHumidity: %2.0f%%  \r\nPressure:%2.0f hPa\r\n\n"
     [AFloat (temp g); AFloat (hum g); AFloat (F32.div (pressure g) (F32.of_int 100))];
   Serial_printf "Battery Volt: %dmv \n" [AInt (getBatteryVoltage env)];
   Serial_printf "Battery Current: %dmv \n" [AInt (getBatteryCurrent env)];
   Serial_printf "Battery Level: %d% \n\n" [AInt (getBatteryLevel env)]].

Definition lcd_readings (g : Globals) : list Event :=
  [Display_clear; Display_setTextSize 2; Display_setCursor 10 10;
   Display_setTextColor ORANGE BLACK; Display_printf "== Grafana Labs ==" [];
   Display_setTextColor WHITE BLACK; Display_setCursor 0 40;
   Display_printf "  Temp: %2.1f  \r\n  Humi: %2.0f%%  \r\n  Pressure:%2.0f hPa\r\n"
     [AFloat (temp g); AFloat (hum g); AFloat (F32.div (pressure g) (F32.of_int 100))]].

Definition lcd_wifi (connected : bool) : list Event :=
  if connected
  then [Display_printf "  Wifi: " []; Display_setTextColor GREEN BLACK;
        Display_printf "Connected" []]
  else [Display_setTextColor WHITE BLACK; Display_printf "  Wifi: " [];
        Display_setTextColor RED BLACK; Display_printf "Not connected!" []].

Definition lcd_upload (res count : Z) : list Event :=
  [Display_setTextColor WHITE BLACK; Display_printf "  Upload " []] ++
  (if res =? 0
   then [Display_setTextColor GREEN BLACK; Display_printf "complete" []]
   else [Display_setTextColor RED BLACK;
         Display_printf "failed: %s" [AStr (String_of_int count)]]).

Definition lcd_status (cfg : Config) (env : LoopEnv) (res count : Z) : list Event :=
  if show_debug_info cfg
  then Display_setCursor 0 92 :: lcd_wifi (WiFi_connected env)
       ++ Display_setCursor 0 110 :: lcd_upload res count
  else [].

(** Every call a full cycle makes, in order. *)
Definition loop_trace (cfg : Config) (env : LoopEnv) (g : Globals) : list Event :=
  let g1 := sense env g in
  banner :: serial_report env g1
  ++ client_send (loop_sent env g) (loop_res env g) :: lcd_readings g1
  ++ lcd_status cfg env (loop_res env g) (upload_fail_count (loop_end cfg env g))
  ++ [delay 5000].

(** ** [setup] in closed form *)

Definition register (r : SeriesRef) (g : Globals) : Globals :=
  with_req (snd (addTimeSeries (req g) r)) g.

(** Lines 109 to 114. *)
Definition register_all (g : Globals) : Globals :=
  fold_left (fun g' r => register r g') all_refs g.

(** The calls of [setup] up to [transport.begin()]. *)
Definition setup_greeting (cfg : Config) (env : SetupEnv) : list Event :=
  [Display_setRotation 3; Display_setTextSize 2; Display_setCursor 10 10;
   Display_setTextColor ORANGE BLACK; Display_printf "== Grafana Labs ==" [];
   Display_setTextColor WHITE BLACK]
  ++ (if qmp6988_begin env then [] else [Serial_println "Couldn't find QMP6988"])
  ++ (if sht30_begin env then [] else [Serial_println "Couldn't find SHT3X"])
  ++ [Display_setCursor 10 30; Display_printf "Hello, %s" [AStr (YOUR_NAME cfg)];
      Display_setCursor 10 60;
      Display_printf "Please wait:\r\n Connecting to WiFi" []].

(** The calls between the two [begin()]s. *)
Definition setup_connected : list Event :=
  [Display_setCursor 10 105; Display_setTextColor GREEN BLACK;
   Display_printf "Connected!" []; delay 1500].

(** ** Observations *)

Definition is_display (e : Event) : bool :=
  match e with
  | Display_setRotation _ | Display_setTextSize _ | Display_setCursor _ _
  | Display_setTextColor _ _ | Display_printf _ _ | Display_clear => true
  | _ => false
  end.

(** A trace with the calls to the display taken out. *)
Definition hide_display (tr : list Event) : list Event :=
  filter (fun e => negb (is_display e)) tr.

(** The send attempts of a trace: what was handed over, and the answer. *)
Fixpoint sends (tr : list Event) : list (list TimeSeries * Z) :=
  match tr with
  | [] => []
  | client_send sent res :: rest => (sent, res) :: sends rest
  | _ :: rest => sends rest
  end.

Definition send_results (tr : list Event) : list Z := map snd (sends tr).

(** The counter after a sequence of answers, oldest first. *)
Definition tally_all (c : Z) (results : list Z) : Z := fold_left tally results c.

(** The metric name each series was constructed with. *)
Definition series_name (r : SeriesRef) : string :=
  match r with
  | Ref_temperature => "m5stick_temp"
  | Ref_humidity => "m5stick_hum"
  | Ref_pressure => "m5stick_pressure"
  | Ref_bat_volt => "m5stick_bat_volt"
  | Ref_bat_current => "m5stick_bat_current"
  | Ref_bat_level => "m5stick_bat_level"
  end.

(** The globals as they stand between two cycles: the request holds the six
    addresses in order and every series is as constructed, hence empty. *)
Definition ready (cfg : Config) (g : Globals) : Prop :=
  req g = mkWriteRequest 11 2048 all_refs /\
  forall r, deref g r = mkTimeSeries 1 (series_name r) (PROM_LABELS cfg) [].

(** The globals a running process can have at the start of a cycle. *)
Definition reachable (cfg : Config) (g : Globals) : Prop :=
  exists ws tr, run cfg ws Booting = (Looping g, tr).

(** A series holding the single sample [(t, v)]. *)
Definition one_sample (cfg : Config) (t : Z) (v : SeriesRef -> spec_float) (r : SeriesRef)
  : TimeSeries :=
  mkTimeSeries 1 (series_name r) (PROM_LABELS cfg) [mkSample t (v r)].

(** Two sets of globals that differ at most in [upload_fail_count]. *)
Definition same_but_count (g g' : Globals) : Prop :=
  temp g = temp g' /\ hum g = hum g' /\ pressure g = pressure g' /\
  req g = req g' /\ forall r, deref g r = deref g' r.

(** Two outcomes that agree on everything but the failure counter and the
    calls to the display. *)
Definition same_but_status (o o' : Outcome unit) : Prop :=
  match o, o' with
  | Ret _ g tr, Ret _ g' tr' => same_but_count g g' /\ hide_display tr = hide_display tr'
  | Restart tr, Restart tr' => hide_display tr = hide_display tr'
  | Hang tr, Hang tr' => hide_display tr = hide_display tr'
  | _, _ => False
  end.

(** The rule as the specification words it: restart when the reading over
    100 is below 950 or above 1200. *)
Definition spec_checkPressure (p : spec_float) : bool :=
  F32.ltb (F32.div p (F32.of_int 100)) (F32.of_int 950)
  || F32.ltb (F32.of_int 1200) (F32.div p (F32.of_int 100)).

(** ** Sample inputs *)

Definition debug_cfg : Config := mkConfig "Willie" "{job=m5stick}" "1".
Definition quiet_cfg : Config := mkConfig "Willie" "{job=m5stick}" "0".

Definition setup_ok : SetupEnv := mkSetupEnv true true true "" true "".
Definition setup_no_wifi : SetupEnv := mkSetupEnv true true false "no wifi" true "".

(** The globals right after a [setup()] that went through. *)
Definition started (cfg : Config) : Globals := register_all (boot_globals cfg).

(** 22.5 degrees, 41 percent, 101500 Pa; battery 3850 mV, -120 mA, 76 percent;
    the send answers [res]. *)
Definition scenario_A (time res : Z) : LoopEnv :=
  mkLoopEnv time (Some (F32.of_int 101500))
    (Some (F32.make 45 (-1), F32.of_int 41)) 3850 (-120) 76 (fun _ => res) true.

(** Neither sensor answers. *)
Definition sensors_down (time : Z) : LoopEnv :=
  mkLoopEnv time None None 3850 (-120) 76 (fun _ => 0) true.

Definition boot_then_A : list Tick :=
  [mkTick setup_ok (sensors_down 0); mkTick setup_ok (scenario_A 1000 0)].

Definition no_wifi : Tick := mkTick setup_no_wifi (scenario_A 1000 0).

(** A send that succeeds, then two that fail with code 7. *)
Definition success_then_two_failures : list LoopEnv :=
  [scenario_A 1000 0; scenario_A 6000 7; scenario_A 11000 7].

(** The calls an outcome carries. *)
Definition trace_of {A} (o : Outcome A) : list Event :=
  match o with
  | Ret _ _ tr => tr
  | Restart tr => tr
  | Hang tr => tr
  end.

Definition phase_ready (cfg : Config) (ph : Phase) : Prop :=
  match ph with
  | Looping g => ready cfg g
  | _ => True
  end.

Definition names_in_order (sr : list TimeSeries * Z) : Prop :=
  map name (fst sr) = map series_name all_refs.

(** The pressure the sketch holds after [envs], given what it held before. *)
Definition keep_reading (acc : option spec_float) (env : LoopEnv) : option spec_float :=
  match qmp6988_update env with
  | Some p => Some p
  | None => acc
  end.

Definition from_opt (o : option spec_float) (d : spec_float) : spec_float :=
  match o with
  | Some p => p
  | None => d
  end.

(** The most recent pressure a successful read delivered, if any. *)
Definition last_read (envs : list LoopEnv) : option spec_float :=
  fold_left keep_reading envs None.

(** The calls of a full cycle other than those to the display. *)
Definition quiet_trace (env : LoopEnv) (g : Globals) : list Event :=
  banner :: serial_report env (sense env g)
  ++ [client_send (loop_sent env g) (loop_res env g); delay 5000].

(** The counts the display was asked to print after "failed: ". *)
Fixpoint failures_shown (tr : list Event) : list string :=
  match tr with
  | [] => []
  | Display_printf "failed: %s" [AStr n] :: rest => n :: failures_shown rest
  | _ :: rest => failures_shown rest
  end.

(** ** Further observations *)

(** The pressure series as handed to a send: third in the request, under
    its name, holding one sample of value [p]. *)
Definition pressure_sent (p : spec_float) (sr : list TimeSeries * Z) : Prop :=
  exists ts, nth_error (fst sr) 2 = Some ts /\
             name ts = "m5stick_pressure"%string /\
             map val (batch ts) = [F64.of_float p].

(** The count an event asks the display to print after "failed: ". *)
Definition shown_count (e : Event) : list string :=
  match e with
  | Display_printf fmt [AStr n] => if String.eqb fmt "failed: %s" then [n] else []
  | _ => []
  end.

Definition shown_counts (tr : list Event) : list string := flat_map shown_count tr.

(** What the display is asked to print after "failed: " over a sequence of
    answers, starting from a counter of [c]. *)
Fixpoint shown_tallies (c : Z) (results : list Z) : list string :=
  match results with
  | [] => []
  | r :: rest =>
      if r =? 0 then shown_tallies 0 rest
      else String_of_int (wrap_int (c + 1)) :: shown_tallies (wrap_int (c + 1)) rest
  end.

(** The texts of the debug block, lines 175 to 205. *)
Definition status_texts : list string :=
  ["  Wifi: "; "Not connected!"; "Connected"; "  Upload "; "complete"; "failed: %s"]%string.

Definition is_status (e : Event) : bool :=
  match e with
  | Display_printf fmt _ => existsb (String.eqb fmt) status_texts
  | _ => false
  end.

(** [P] on every integer from [lo] to [hi], by halving. *)
Fixpoint all_between (fuel : nat) (P : Z -> bool) (lo hi : Z) : bool :=
  match fuel with
  | O => hi <? lo
  | S f =>
      if hi <? lo then true
      else if lo =? hi then P lo
      else let mid := (lo + hi) / 2 in
           all_between f P lo mid && all_between f P (mid + 1) hi
  end.

(** The process is before [setup()], halted, or about to run its first
    cycle. *)
Definition not_past_first_cycle (cfg : Config) (ph : Phase) : Prop :=
  ph = Booting \/ ph = Halted \/ ph = Looping (started cfg).

(** The pressure sensor answers with something that is not a number. *)
Definition nan_reading (time : Z) : LoopEnv :=
  mkLoopEnv time (Some S754_nan) (Some (F32.make 45 (-1), F32.of_int 41))
    3850 (-120) 76 (fun _ => 0) true.

(** A cycle whose pressure reading, 1300 hPa, is implausible. *)
Definition bad_reading : Tick :=
  mkTick setup_ok (mkLoopEnv 1000 (Some (F32.of_int 130000)) None 3850 (-120) 76
                     (fun _ => 0) true).

(** A step in which neither sensor answers. *)
Definition no_reading : Tick := mkTick setup_ok (sensors_down 0).

(** Boot, then three cycles whose sends fail. *)
Definition boot_then_failures : list Tick :=
  [mkTick setup_ok (sensors_down 0); mkTick setup_ok (scenario_A 1000 7);
   mkTick setup_ok (scenario_A 6000 7); mkTick setup_ok (scenario_A 11000 7)].

(** A whole number of hPa, in the sensor's unit, passes lines 132 and 133. *)
Definition whole_hPa_passes (h : Z) : bool := negb (anomalous (F32.of_int (100 * h))).

(** The same answers, with [WiFi.status()] answering differently. *)
Definition with_wifi (b : bool) (env : LoopEnv) : LoopEnv :=
  mkLoopEnv (getTimeMillis env) (qmp6988_update env) (sht30_update env)
    (getBatteryVoltage env) (getBatteryCurrent env) (getBatteryLevel env)
    (send env) b.

(** The pressure read succeeds with a value that passes both tests. *)
Definition plausible_reading (env : LoopEnv) : Prop :=
  exists p, qmp6988_update env = Some p /\ anomalous p = false.

(** ** Stepping through the monad *)

Definition prepend {A} (t : list Event) (o : Outcome A) : Outcome A :=
  match o with
  | Ret a g t' => Ret a g (t ++ t')
  | Restart t' => Restart (t ++ t')
  | Hang t' => Hang (t ++ t')
  end.

Lemma prepend_nil {A} (o : Outcome A) : prepend [] o = o.
Proof. destruct o; reflexivity. Qed.

Lemma prepend_prepend {A} (s t : list Event) (o : Outcome A) :
  prepend s (prepend t o) = prepend (s ++ t) o.
Proof. destruct o; cbn; rewrite app_assoc; reflexivity. Qed.

Lemma bind_unfold {A B} (m : M A) (f : A -> M B) g :
  bind m f g =
  match m g with
  | Ret a g1 t1 => prepend t1 (f a g1)
  | Restart t1 => Restart t1
  | Hang t1 => Hang t1
  end.
Proof. unfold bind, prepend. destruct (m g); reflexivity. Qed.

Lemma bind_assoc {A B C} (m : M A) (f : A -> M B) (k : B -> M C) g :
  bind (bind m f) k g = bind m (fun x => bind (f x) k) g.
Proof.
  rewrite !bind_unfold. destruct (m g) as [a g1 t1 | t1 | t1]; try reflexivity.
  rewrite bind_unfold.
  destruct (f a g1) as [b g2 t2 | t2 | t2]; cbn [prepend]; try reflexivity.
  rewrite prepend_prepend. reflexivity.
Qed.

Lemma bind_ret {A B} (a : A) (f : A -> M B) g : bind (ret a) f g = f a g.
Proof. rewrite bind_unfold. apply prepend_nil. Qed.

Lemma bind_get {B} (f : Globals -> M B) g : bind get f g = f g g.
Proof. rewrite bind_unfold. apply prepend_nil. Qed.

Lemma bind_modify {B} (h : Globals -> Globals) (f : unit -> M B) g :
  bind (modify h) f g = f tt (h g).
Proof. rewrite bind_unfold. apply prepend_nil. Qed.

Lemma bind_emit {B} (e : Event) (f : unit -> M B) g :
  bind (emit e) f g = prepend [e] (f tt g).
Proof. rewrite bind_unfold. reflexivity. Qed.

Lemma bind_restart {A B} (f : A -> M B) g : bind ESP_restart f g = Restart [].
Proof. reflexivity. Qed.

Lemma bind_while_true {A B} (f : A -> M B) g : bind while_true f g = Hang [].
Proof. reflexivity. Qed.

Lemma bind_ts_addSample {B} r t v (f : bool -> M B) g :
  bind (ts_addSample r t v) f g
  = f (fst (addSample (deref g r) t v)) (add_to r t v g).
Proof.
  unfold ts_addSample, set_series.
  rewrite bind_assoc, bind_get. cbv zeta.
  rewrite bind_assoc, bind_modify, bind_ret. reflexivity.
Qed.

Lemma bind_ts_resetSamples {B} r (f : unit -> M B) g :
  bind (ts_resetSamples r) f g = f tt (reset_in r g).
Proof.
  unfold ts_resetSamples, set_series.
  rewrite bind_assoc, bind_get, bind_modify. reflexivity.
Qed.

Lemma bind_req_addTimeSeries {B} r (f : bool -> M B) g :
  bind (req_addTimeSeries r) f g = f (fst (addTimeSeries (req g) r)) (register r g).
Proof.
  unfold req_addTimeSeries, set_req.
  rewrite bind_assoc, bind_get. cbv zeta.
  rewrite bind_assoc, bind_modify, bind_ret. reflexivity.
Qed.

Lemma bind_set_upload_fail_count {B} c (f : unit -> M B) g :
  bind (set_upload_fail_count c) f g = f tt (with_count c g).
Proof. apply bind_modify. Qed.

Lemma bind_client_send_req {B} env (f : Z -> M B) g :
  bind (client_send_req env) f g
  = prepend [client_send (map (deref g) (series (req g)))
               (send env (map (deref g) (series (req g))))]
      (f (send env (map (deref g) (series (req g)))) g).
Proof.
  unfold client_send_req.
  rewrite bind_assoc, bind_get. cbv zeta.
  rewrite bind_assoc, bind_emit, bind_ret. reflexivity.
Qed.

Create Rewrite HintDb sketch.
#[global] Hint Rewrite @bind_assoc @bind_ret @bind_get @bind_modify @bind_emit
  @bind_ts_addSample @bind_ts_resetSamples @bind_req_addTimeSeries
  @bind_set_upload_fail_count
  @bind_client_send_req @prepend_prepend @prepend_nil : sketch.

Ltac run_sketch :=
  repeat (autorewrite with sketch; cbn [prepend app]).

(** ** One cycle, symbolically *)

Lemma bind_read_sensors {B} env (f : unit -> M B) g :
  bind match qmp6988_update env with
       | Some p => set_pressure p
       | None => ret tt
       end
       (fun _ =>
          bind match sht30_update env with
               | Some (cTemp, humidity) => set_temp cTemp ;; set_hum humidity
               | None => set_temp (F32.of_int 0) ;; set_hum (F32.of_int 0)
               end f) g
  = f tt (sense env g).
Proof.
  unfold sense, set_pressure, set_temp, set_hum.
  destruct (qmp6988_update env) as [p|], (sht30_update env) as [[t h]|];
    autorewrite with sketch; destruct g; reflexivity.
Qed.

(** A cycle whose retained pressure fails one of the two tests ends in
    [ESP.restart()] right after the banner. *)
Lemma loop_restart cfg env g :
  anomalous (pressure (sense env g)) = true ->
  loop cfg env g = Restart [banner].
Proof.
  unfold anomalous, loop. intros H.
  rewrite bind_emit, bind_read_sensors, bind_get.
  destruct (F32.ltb (pressure (sense env g)) (F32.of_int 950)); cbn [when orb] in *.
  - rewrite bind_restart. reflexivity.
  - rewrite bind_ret, H. cbn [when]. rewrite bind_restart. reflexivity.
Qed.

(** Any other cycle runs to its end. *)
Lemma loop_full cfg env g :
  anomalous (pressure (sense env g)) = false ->
  loop cfg env g = Ret tt (loop_end cfg env g) (loop_trace cfg env g).
Proof.
  unfold anomalous. intros H. apply orb_false_elim in H. destruct H as [H1 H2].
  unfold loop_trace, loop_end, loop_res, loop_sent, banner, serial_report,
    lcd_readings, loop.
  rewrite bind_emit, bind_read_sensors, bind_get.
  set (g1 := sense env g) in *.
  rewrite H1; cbn [when]. rewrite bind_ret, H2; cbn [when]. rewrite bind_ret.
  run_sketch.
  unfold append_all, clear_all. cbn [fold_left all_refs sample_value].
  set (g2 := add_to Ref_bat_level _ _ _).
  set (res := send env _).
  set (g3 := reset_in Ref_bat_level _).
  unfold lcd_status, lcd_upload, lcd_wifi, tally.
  destruct (show_debug_info cfg); cbn [when]; run_sketch;
    [ destruct (WiFi_connected env); cbn [negb]; run_sketch;
      destruct (Z.eqb res 0); run_sketch | ];
    reflexivity.
Qed.

Lemma loop_cases cfg env g :
  loop cfg env g =
  if anomalous (pressure (sense env g)) then Restart [banner]
  else Ret tt (loop_end cfg env g) (loop_trace cfg env g).
Proof.
  destruct (anomalous (pressure (sense env g))) eqn:E.
  - apply loop_restart, E.
  - apply loop_full, E.
Qed.

(** ** Facts about the closed forms *)

Ltac open_store :=
  cbv [append_all clear_all all_refs fold_left add_to reset_in assign deref
       sample_value with_count with_sensors
       temp hum pressure upload_fail_count req
       ts_m5stick_temperature ts_m5stick_humidity ts_m5stick_pressure
       ts_m5stick_bat_volt ts_m5stick_bat_current ts_m5stick_bat_level].

Lemma deref_append_all env g r :
  deref (append_all env g) r
  = snd (addSample (deref g r) (getTimeMillis env) (sample_value env g r)).
Proof. destruct r; open_store; reflexivity. Qed.

Lemma deref_clear_all g r : deref (clear_all g) r = resetSamples (deref g r).
Proof. destruct r; open_store; reflexivity. Qed.

Lemma req_append_all env g : req (append_all env g) = req g.
Proof. open_store; reflexivity. Qed.

Lemma req_loop_end cfg env g : req (loop_end cfg env g) = req g.
Proof. unfold loop_end, sense. destruct (show_debug_info cfg); open_store; reflexivity. Qed.

Lemma deref_loop_end cfg env g r :
  deref (loop_end cfg env g) r
  = resetSamples (deref (append_all env (sense env g)) r).
Proof.
  unfold loop_end. rewrite <- deref_clear_all.
  destruct (show_debug_info cfg); [|reflexivity].
  destruct r; cbv [with_count deref ts_m5stick_temperature ts_m5stick_humidity ts_m5stick_pressure
       ts_m5stick_bat_volt ts_m5stick_bat_current ts_m5stick_bat_level]; reflexivity.
Qed.

Lemma pressure_loop_end cfg env g :
  pressure (loop_end cfg env g) = pressure (sense env g).
Proof. unfold loop_end. destruct (show_debug_info cfg); open_store; reflexivity. Qed.

Lemma temp_hum_loop_end cfg env g :
  temp (loop_end cfg env g) = temp (sense env g)
  /\ hum (loop_end cfg env g) = hum (sense env g).
Proof. unfold loop_end. destruct (show_debug_info cfg); open_store; split; reflexivity. Qed.

Lemma count_loop_end cfg env g :
  upload_fail_count (loop_end cfg env g) =
  if show_debug_info cfg then tally (upload_fail_count g) (loop_res env g)
  else upload_fail_count g.
Proof. unfold loop_end, sense. destruct (show_debug_info cfg); open_store; reflexivity. Qed.

Lemma sends_app tr tr' : sends (tr ++ tr') = sends tr ++ sends tr'.
Proof.
  induction tr as [|e tr IH]; [reflexivity|].
  destruct e; cbn [sends app]; rewrite IH; reflexivity.
Qed.

Lemma sends_lcd_status cfg env res c : sends (lcd_status cfg env res c) = [].
Proof.
  unfold lcd_status, lcd_wifi, lcd_upload.
  destruct (show_debug_info cfg), (WiFi_connected env), (res =? 0); reflexivity.
Qed.

(** A full cycle makes exactly one send attempt. *)
Lemma sends_loop_trace cfg env g :
  sends (loop_trace cfg env g) = [(loop_sent env g, loop_res env g)].
Proof.
  unfold loop_trace, banner, serial_report, lcd_readings. cbn [sends app].
  rewrite sends_app, sends_lcd_status. reflexivity.
Qed.

(** ** [setup], symbolically *)

Lemma bind_when_emit {B} (b : bool) (e : Event) (f : unit -> M B) g :
  bind (when (negb b) (emit e)) f g = prepend (if b then [] else [e]) (f tt g).
Proof.
  destruct b; cbn [negb when]; [rewrite bind_ret | rewrite bind_emit];
    [rewrite prepend_nil|]; reflexivity.
Qed.

Lemma bind_when_halt {B} (b : bool) (e : Event) (f : unit -> M B) g :
  bind (when (negb b) (emit e ;; while_true)) f g = if b then f tt g else Hang [e].
Proof.
  destruct b; cbn [negb when]; [apply bind_ret|].
  rewrite bind_assoc, bind_emit, bind_while_true. reflexivity.
Qed.

Lemma setup_cases cfg env g :
  setup cfg env g =
  if transport_begin env then
    if client_begin env
    then Ret tt (register_all g) (setup_greeting cfg env ++ setup_connected)
    else Hang (setup_greeting cfg env ++ setup_connected
               ++ [Serial_println (client_errmsg env)])
  else Hang (setup_greeting cfg env ++ [Serial_println (transport_errmsg env)]).
Proof.
  unfold setup, setup_greeting, setup_connected, register_all.
  cbn [fold_left all_refs].
  rewrite !bind_emit, !bind_when_emit, !bind_emit, bind_when_halt.
  destruct (transport_begin env).
  - rewrite !bind_emit, bind_when_halt.
    destruct (client_begin env).
    + rewrite !bind_req_addTimeSeries. 
      rewrite !prepend_prepend. unfold ret. cbn [prepend].
      destruct (qmp6988_begin env), (sht30_begin env); reflexivity.
    + rewrite !prepend_prepend. 
      destruct (qmp6988_begin env), (sht30_begin env); reflexivity.
  - rewrite !prepend_prepend.
    destruct (qmp6988_begin env), (sht30_begin env); reflexivity.
Qed.

(** ** The invariant between cycles *)

Lemma ready_registered cfg : ready cfg (register_all (boot_globals cfg)).
Proof. split; [reflexivity | intros r; destruct r; reflexivity]. Qed.

Lemma setup_ready cfg env g tr :
  setup cfg env (boot_globals cfg) = Ret tt g tr -> ready cfg g.
Proof.
  rewrite setup_cases.
  destruct (transport_begin env); [|discriminate].
  destruct (client_begin env); [|discriminate].
  intros H. injection H as <- _. apply ready_registered.
Qed.

Lemma deref_sense env g r : deref (sense env g) r = deref g r.
Proof. destruct r; reflexivity. Qed.

Lemma req_sense env g : req (sense env g) = req g.
Proof. reflexivity. Qed.

Lemma pressure_sense env g :
  pressure (sense env g)
  = match qmp6988_update env with Some p => p | None => pressure g end.
Proof. reflexivity. Qed.

(** With every series empty and of capacity one, each append succeeds. *)
Lemma deref_append_ready cfg env g r :
  ready cfg g ->
  deref (append_all env (sense env g)) r
  = one_sample cfg (getTimeMillis env) (sample_value env (sense env g)) r.
Proof.
  intros [_ Hs]. rewrite deref_append_all, deref_sense, Hs. reflexivity.
Qed.

Lemma loop_sent_ready cfg env g :
  ready cfg g ->
  loop_sent env g
  = map (one_sample cfg (getTimeMillis env) (sample_value env (sense env g))) all_refs.
Proof.
  intros Hr. unfold loop_sent. rewrite req_append_all, req_sense.
  destruct Hr as [Hq Hs]. rewrite Hq. cbn [series].
  apply map_ext. intros r. apply deref_append_ready. split; assumption.
Qed.

Lemma loop_end_ready cfg env g : ready cfg g -> ready cfg (loop_end cfg env g).
Proof.
  intros Hr. split.
  - rewrite req_loop_end. apply Hr.
  - intros r. rewrite deref_loop_end, (deref_append_ready cfg) by exact Hr.
    reflexivity.
Qed.

Lemma loop_ready cfg env g g' tr :
  ready cfg g -> loop cfg env g = Ret tt g' tr -> ready cfg g'.
Proof.
  intros Hr. rewrite loop_cases.
  destruct (anomalous _); [discriminate|].
  intros H. injection H as <- _. apply loop_end_ready, Hr.
Qed.

Lemma step_ready cfg ph w : phase_ready cfg ph -> phase_ready cfg (fst (step cfg ph w)).
Proof.
  destruct ph as [| |g]; cbn [step]; intros Hr.
  - destruct (setup cfg (at_setup w) (boot_globals cfg)) as [[] g tr|tr|tr] eqn:E;
      cbn [phase_of fst phase_ready]; [|exact I|exact I].
    eapply setup_ready, E.
  - exact I.
  - destruct (loop cfg (at_loop w) g) as [[] g' tr|tr|tr] eqn:E;
      cbn [phase_of fst phase_ready]; [|exact I|exact I].
    eapply loop_ready; [exact Hr | exact E].
Qed.

Lemma run_ready cfg ws : forall ph,
  phase_ready cfg ph -> phase_ready cfg (fst (run cfg ws ph)).
Proof.
  induction ws as [|w ws IH]; intros ph Hr; cbn [run]; [exact Hr|].
  pose proof (step_ready cfg ph w Hr) as H1.
  destruct (step cfg ph w) as [ph1 t1]. cbn [fst] in H1.
  specialize (IH ph1 H1).
  destruct (run cfg ws ph1) as [ph2 t2]. exact IH.
Qed.

Lemma reachable_ready cfg g : reachable cfg g -> ready cfg g.
Proof.
  intros (ws & tr & H).
  pose proof (run_ready cfg ws Booting I) as Hr.
  rewrite H in Hr. exact Hr.
Qed.

(** ** The anomaly test *)

(** [loop] ends in a restart exactly when the retained pressure is below 950
    as it stands, or above 1200 once divided by 100. *)
Lemma loop_restarts_iff cfg env g :
  (exists tr, loop cfg env g = Restart tr) <->
  F32.ltb (pressure (sense env g)) (F32.of_int 950) = true \/
  F32.ltb (F32.of_int 1200) (F32.div (pressure (sense env g)) (F32.of_int 100)) = true.
Proof.
  rewrite loop_cases. unfold anomalous. rewrite <- orb_true_iff.
  destruct (_ || _); split; intros H; try reflexivity; try discriminate.
  - eexists; reflexivity.
  - destruct H; discriminate.
Qed.

Lemma reading_900hPa_passes : anomalous (F32.of_int 90000) = false.
Proof. vm_compute. reflexivity. Qed.

(** C1 (code defect).  A reading of 90000, that is 900 hPa, is below the
    lower bound of the rule as specified ([p/100 < 950]), so a restart is
    required; line 132 compares the reading itself with 950, finds nothing
    wrong, and the cycle runs to its end. *)
Theorem C1_reading_900hPa_not_restarted cfg g time sht bv bc bl answer wifi :
  let p := F32.of_int 90000 in
  let env := mkLoopEnv time (Some p) sht bv bc bl answer wifi in
  spec_checkPressure p = true /\
  F32.ltb p (F32.of_int 950) = false /\
  loop cfg env g = Ret tt (loop_end cfg env g) (loop_trace cfg env g).
Proof.
  cbv zeta. split; [vm_compute; reflexivity|].
  split; [vm_compute; reflexivity|].
  apply loop_full. exact reading_900hPa_passes.
Qed.

(** C2 (code defect).  Scenario B on the code: with a pressure reading of
    90000 (900 hPa) and the debug display switched on, the cycle does not
    restart; it makes its send attempt, redraws the screen and prints the
    upload status. *)
Theorem C2_scenario_B_on_the_code nm lbl g time sht bv bc bl answer wifi :
  let cfg := mkConfig nm lbl "1" in
  let env := mkLoopEnv time (Some (F32.of_int 90000)) sht bv bc bl answer wifi in
  loop cfg env g = Ret tt (loop_end cfg env g) (loop_trace cfg env g) /\
  sends (loop_trace cfg env g) = [(loop_sent env g, loop_res env g)] /\
  In Display_clear (loop_trace cfg env g) /\
  In (Display_printf "  Upload " []) (loop_trace cfg env g).
Proof.
  cbv zeta. split; [apply loop_full; exact reading_900hPa_passes|].
  split; [apply sends_loop_trace|].
  unfold loop_trace. split.
  - right. apply in_or_app. right. right. left. reflexivity.
  - right. apply in_or_app. right. right. apply in_or_app. right.
    apply in_or_app. left.
    unfold lcd_status. change (show_debug_info (mkConfig nm lbl "1")) with true.
    cbv iota. right. apply in_or_app. right. right.
    unfold lcd_upload. apply in_or_app. left. right. left. reflexivity.
Qed.

(** ** The retained pressure *)

Lemma started_pressure_low cfg :
  F32.ltb (pressure (started cfg)) (F32.of_int 950) = true.
Proof. vm_compute. reflexivity. Qed.

Lemma setup_started cfg env g tr :
  setup cfg env (boot_globals cfg) = Ret tt g tr -> g = started cfg.
Proof.
  rewrite setup_cases.
  destruct (transport_begin env); [|discriminate].
  destruct (client_begin env); [|discriminate].
  intros H. injection H as <- _. reflexivity.
Qed.

(** C10.  The test of line 132 reads the global [pressure], which starts at
    0.0 and is left alone when [qmp6988.update()] fails.  So a cycle whose
    pressure read fails while the retained value is below 950 restarts
    right after the banner, before any sample is added or sent; the first
    cycle after [setup()] is such a cycle. *)
Theorem C10_retained_pressure_is_checked cfg env g :
  qmp6988_update env = None ->
  pressure (boot_globals cfg) = S754_zero false /\
  pressure (sense env g) = pressure g /\
  (F32.ltb (pressure g) (F32.of_int 950) = true ->
   loop cfg env g = Restart [banner] /\ sends [banner] = []) /\
  (forall senv tr, setup cfg senv (boot_globals cfg) = Ret tt g tr ->
   loop cfg env g = Restart [banner]).
Proof.
  intros Hq.
  assert (Hp : pressure (sense env g) = pressure g)
    by (rewrite pressure_sense, Hq; reflexivity).
  assert (Hlow : F32.ltb (pressure g) (F32.of_int 950) = true ->
                 loop cfg env g = Restart [banner]).
  { intros H. apply loop_restart. unfold anomalous. rewrite Hp, H. reflexivity. }
  repeat split; auto.
  intros senv tr Hs. apply Hlow.
  rewrite (setup_started _ _ _ _ Hs). apply started_pressure_low.
Qed.

Lemma C10_first_cycle_without_reading :
  setup debug_cfg setup_ok (boot_globals debug_cfg)
    = Ret tt (started debug_cfg) (setup_greeting debug_cfg setup_ok ++ setup_connected)
  /\ loop debug_cfg (sensors_down 0) (started debug_cfg) = Restart [banner].
Proof.
  assert (Hs : setup debug_cfg setup_ok (boot_globals debug_cfg)
    = Ret tt (started debug_cfg) (setup_greeting debug_cfg setup_ok ++ setup_connected))
    by (rewrite setup_cases; reflexivity).
  split; [exact Hs|].
  exact (proj2 (proj2 (proj2
    (C10_retained_pressure_is_checked debug_cfg (sensors_down 0) (started debug_cfg)
       eq_refl))) setup_ok _ Hs).
Defined.

(* From here on the closed forms are used through the lemmas above;
   conversion unfolds them last. *)
#[global] Strategy 100 [loop setup loop_end loop_trace loop_sent loop_res append_all clear_all
                sense add_to reset_in assign register_all register].

(** ** Clearing after the send *)

Lemma addSample_keeps ts t v :
  name (snd (addSample ts t v)) = name ts /\
  labels (snd (addSample ts t v)) = labels ts /\
  batchSize (snd (addSample ts t v)) = batchSize ts.
Proof. unfold addSample. destruct (_ <=? _)%nat; cbn; auto. Qed.

(** After an append to an empty series, the series holds nothing but the
    sample just offered. *)
Lemma addSample_fresh ts t v s :
  batch ts = [] -> In s (batch (snd (addSample ts t v))) -> s = mkSample t v.
Proof.
  unfold addSample. intros He. destruct (_ <=? _)%nat; cbn [snd batch]; rewrite He.
  - intros [].
  - intros [H|[]]. symmetry. exact H.
Qed.

Lemma loop_end_cleared cfg env g r :
  batch (deref (loop_end cfg env g) r) = [] /\
  name (deref (loop_end cfg env g) r) = name (deref g r) /\
  labels (deref (loop_end cfg env g) r) = labels (deref g r) /\
  batchSize (deref (loop_end cfg env g) r) = batchSize (deref g r).
Proof.
  rewrite deref_loop_end, deref_append_all, deref_sense.
  destruct (addSample_keeps (deref g r) (getTimeMillis env)
              (sample_value env (sense env g) r)) as (Hn & Hl & Hb).
  cbn [resetSamples batch name labels batchSize]. auto.
Qed.

Lemma loop_ret_inv cfg env g g' tr :
  loop cfg env g = Ret tt g' tr ->
  anomalous (pressure (sense env g)) = false /\
  g' = loop_end cfg env g /\ tr = loop_trace cfg env g.
Proof.
  intros H. destruct (anomalous (pressure (sense env g))) eqn:E.
  - rewrite (loop_restart _ _ _ E) in H. discriminate.
  - rewrite (loop_full _ _ _ E) in H. injection H as H1 H2. auto.
Qed.


Lemma loop_sent_eq env g :
  loop_sent env g = map (deref (append_all env (sense env g))) (series (req g)).
Proof. unfold loop_sent. cbv zeta. rewrite req_append_all, req_sense. reflexivity. Qed.

Lemma loop_sent_fresh env g ts s :
  (forall r, batch (deref g r) = []) ->
  In ts (loop_sent env g) -> In s (batch ts) ->
  exists r, s = mkSample (getTimeMillis env) (sample_value env (sense env g) r).
Proof.
  intros He Hts Hs. rewrite loop_sent_eq in Hts.
  apply in_map_iff in Hts. destruct Hts as (r & Hr & _).
  exists r. 
  assert (Hs' : In s (batch (snd (addSample (deref g r) (getTimeMillis env) (sample_value env (sense env g) r))))).
  { rewrite <- deref_sense with (env := env). rewrite <- deref_append_all. rewrite  Hr. exact Hs. }
  eapply addSample_fresh; [|exact Hs']. apply He.
Qed.

(** C5.  A cycle that returns has made exactly one send attempt, whatever
    the answer was, and ends with all six series empty; names, labels,
    capacities and the request's list of series are as before.  Nothing of
    the cycle is kept: whatever the next cycle hands over was sampled in
    that next cycle. *)
Theorem C5_series_cleared_after_every_send cfg env g g' tr :
  loop cfg env g = Ret tt g' tr ->
  sends tr = [(loop_sent env g, send env (loop_sent env g))] /\
  (forall r, batch (deref g' r) = [] /\
             name (deref g' r) = name (deref g r) /\
             labels (deref g' r) = labels (deref g r) /\
             batchSize (deref g' r) = batchSize (deref g r)) /\
  req g' = req g /\
  (forall env' ts s,
     In ts (loop_sent env' g') -> In s (batch ts) ->
     exists r, s = mkSample (getTimeMillis env') (sample_value env' (sense env' g') r)).
Proof.
  intros H. apply loop_ret_inv in H. destruct H as (_ & Hg & Ht).
  assert (Hc : forall r, batch (deref g' r) = [] /\
             name (deref g' r) = name (deref g r) /\
             labels (deref g' r) = labels (deref g r) /\
             batchSize (deref g' r) = batchSize (deref g r))
    by (intros r; rewrite Hg; apply loop_end_cleared).
  split; [rewrite Ht, sends_loop_trace; reflexivity|].
  split; [exact Hc|].
  split; [rewrite Hg; apply req_loop_end|].
  intros env' ts s. apply loop_sent_fresh. intros r. apply Hc.
Qed.

Lemma scenario_A_passes time res cfg :
  anomalous (pressure (sense (scenario_A time res) (started cfg))) = false.
Proof. vm_compute. reflexivity. Qed.

Lemma C5_failed_send_still_clears :
  sends (loop_trace debug_cfg (scenario_A 1000 1) (started debug_cfg))
  = [(loop_sent (scenario_A 1000 1) (started debug_cfg), 1)]
  /\ batch (ts_m5stick_temperature
              (loop_end debug_cfg (scenario_A 1000 1) (started debug_cfg))) = []
  /\ batch (ts_m5stick_bat_level
              (loop_end debug_cfg (scenario_A 1000 1) (started debug_cfg))) = [].
Proof.
  pose proof (C5_series_cleared_after_every_send debug_cfg (scenario_A 1000 1)
                (started debug_cfg) _ _
                (loop_full _ _ _ (scenario_A_passes 1000 1 debug_cfg)))
    as (Hs & Hc & _).
  split; [exact Hs|].
  split; [exact (proj1 (Hc Ref_temperature)) | exact (proj1 (Hc Ref_bat_level))].
Defined.

(** ** One sample per series and cycle *)

(** C7.  In a running process, a cycle that is not cut short by a restart
    hands exactly the six series to [client.send], each holding exactly one
    sample, and all six samples carry the value [getTimeMillis] returned at
    the top of the cycle. *)
Theorem C7_one_sample_per_series_one_timestamp cfg g env g' tr :
  reachable cfg g ->
  loop cfg env g = Ret tt g' tr ->
  let fresh := one_sample cfg (getTimeMillis env) (sample_value env (sense env g)) in
  sends tr =
    [([fresh Ref_temperature; fresh Ref_humidity; fresh Ref_pressure;
       fresh Ref_bat_volt; fresh Ref_bat_current; fresh Ref_bat_level],
      loop_res env g)]
  /\ forall r, batch (deref (append_all env (sense env g)) r)
               = [mkSample (getTimeMillis env) (sample_value env (sense env g) r)].
Proof.
  intros Hreach H. apply reachable_ready in Hreach.
  apply loop_ret_inv in H. destruct H as (_ & _ & Ht).
  cbv zeta. split.
  - rewrite Ht, sends_loop_trace, (loop_sent_ready cfg) by exact Hreach.
    reflexivity.
  - intros r. rewrite (deref_append_ready cfg) by exact Hreach. reflexivity.
Qed.

Lemma started_reachable cfg : reachable cfg (started cfg).
Proof.
  exists [mkTick setup_ok (sensors_down 0)],
         (setup_greeting cfg setup_ok ++ setup_connected).
  cbn [run step at_setup]. rewrite setup_cases. reflexivity.
Qed.

Lemma C7_scenario_A_batch :
  sends (loop_trace debug_cfg (scenario_A 1000 0) (started debug_cfg))
  = [(map (one_sample debug_cfg 1000
             (sample_value (scenario_A 1000 0)
                (sense (scenario_A 1000 0) (started debug_cfg)))) all_refs,
      0)].
Proof.
  exact (proj1 (C7_one_sample_per_series_one_timestamp debug_cfg (started debug_cfg)
                  (scenario_A 1000 0) _ _ (started_reachable debug_cfg)
                  (loop_full _ _ _ (scenario_A_passes 1000 0 debug_cfg)))).
Defined.

(** ** The process as a whole *)

Lemma snd_phase_of o : snd (phase_of o) = trace_of o.
Proof. destruct o; reflexivity. Qed.

Lemma sends_setup_greeting cfg env : sends (setup_greeting cfg env) = [].
Proof.
  unfold setup_greeting. destruct (qmp6988_begin env), (sht30_begin env); reflexivity.
Qed.

(** [setup] makes no send attempt. *)
Lemma sends_setup cfg env g : sends (trace_of (setup cfg env g)) = [].
Proof.
  rewrite setup_cases.
  destruct (transport_begin env); [destruct (client_begin env)|];
    cbn [trace_of]; rewrite !sends_app, sends_setup_greeting; reflexivity.
Qed.

Lemma loop_sent_names cfg env g :
  ready cfg g -> map name (loop_sent env g) = map series_name all_refs.
Proof. intros Hr. rewrite (loop_sent_ready cfg) by exact Hr. reflexivity. Qed.

Lemma sends_loop_names cfg env g :
  ready cfg g -> Forall names_in_order (sends (trace_of (loop cfg env g))).
Proof.
  intros Hr. rewrite loop_cases. destruct (anomalous _); cbn [trace_of].
  - constructor.
  - rewrite sends_loop_trace. constructor; [|constructor].
    exact (loop_sent_names cfg env g Hr).
Qed.

Lemma sends_step_names cfg ph w :
  phase_ready cfg ph -> Forall names_in_order (sends (snd (step cfg ph w))).
Proof.
  destruct ph as [| |g]; cbn [step phase_ready]; intros Hr.
  - rewrite snd_phase_of, sends_setup. constructor.
  - constructor.
  - rewrite snd_phase_of. apply sends_loop_names, Hr.
Qed.

Lemma run_names cfg ws : forall ph,
  phase_ready cfg ph -> Forall names_in_order (sends (snd (run cfg ws ph))).
Proof.
  induction ws as [|w ws IH]; intros ph Hr; cbn [run]; [constructor|].
  pose proof (step_ready cfg ph w Hr) as H1.
  pose proof (sends_step_names cfg ph w Hr) as H2.
  destruct (step cfg ph w) as [ph1 t1]. cbn [fst snd] in H1, H2.
  specialize (IH ph1 H1).
  destruct (run cfg ws ph1) as [ph2 t2]. cbn [snd] in *.
  rewrite sends_app. apply Forall_app. split; assumption.
Qed.

(** C9.  Nothing is registered before [setup()]; wherever a process that
    started from boot stands between two cycles, the request lists the six
    series in the order temperature, humidity, pressure, battery voltage,
    battery current, battery level, under their six names; and every send
    attempt the process ever made was handed the six series in that
    order. *)
Theorem C9_six_series_in_registration_order cfg ws ph tr :
  run cfg ws Booting = (ph, tr) ->
  series (req (boot_globals cfg)) = [] /\
  (forall g, ph = Looping g ->
     series (req g) =
       [Ref_temperature; Ref_humidity; Ref_pressure;
        Ref_bat_volt; Ref_bat_current; Ref_bat_level] /\
     map (fun r => name (deref g r)) (series (req g)) =
       ["m5stick_temp"; "m5stick_hum"; "m5stick_pressure";
        "m5stick_bat_volt"; "m5stick_bat_current"; "m5stick_bat_level"]%string) /\
  Forall (fun sr => map name (fst sr) =
       ["m5stick_temp"; "m5stick_hum"; "m5stick_pressure";
        "m5stick_bat_volt"; "m5stick_bat_current"; "m5stick_bat_level"]%string)
    (sends tr).
Proof.
  intros H. split; [reflexivity|]. split.
  - intros g ->.
    pose proof (run_ready cfg ws Booting I) as Hr. rewrite H in Hr.
    destruct Hr as [Hq Hs]. rewrite Hq. cbn [series]. split; [reflexivity|].
    unfold all_refs. cbn [map]. rewrite !Hs. reflexivity.
  - pose proof (run_names cfg ws Booting I) as Hn. rewrite H in Hn. exact Hn.
Qed.

Lemma run_halted cfg ws : run cfg ws Halted = (Halted, []).
Proof.
  induction ws as [|w ws IH]; [reflexivity|].
  cbn [run step]. rewrite IH. reflexivity.
Qed.

(** C8.  When [transport.begin()] or [client.begin()] fails, [setup()] ends
    in its endless empty loop: however long the process is then observed it
    is still there, [loop()] was not called, no restart took place, and the
    only calls ever made are those [setup()] made before it stopped. *)
Theorem C8_failed_startup_halts_for_good cfg w ws :
  transport_begin (at_setup w) = false \/ client_begin (at_setup w) = false ->
  exists tr,
    setup cfg (at_setup w) (boot_globals cfg) = Hang tr /\
    run cfg (w :: ws) Booting = (Halted, tr) /\
    sends tr = [] /\
    ~ In banner tr.
Proof.
  intros Hfail.
  assert (Hh : exists tr, setup cfg (at_setup w) (boot_globals cfg) = Hang tr
                          /\ ~ In banner tr).
  { rewrite setup_cases. unfold setup_greeting, setup_connected, banner.
    destruct (transport_begin (at_setup w)).
    - destruct Hfail as [Hf|Hf]; [discriminate|]. rewrite Hf.
      eexists. split; [reflexivity|].
      destruct (qmp6988_begin (at_setup w)), (sht30_begin (at_setup w));
        cbn [app In]; intros Hin;
        repeat (destruct Hin as [Hin|Hin]; [discriminate|]); exact Hin.
    - eexists. split; [reflexivity|].
      destruct (qmp6988_begin (at_setup w)), (sht30_begin (at_setup w));
        cbn [app In]; intros Hin;
        repeat (destruct Hin as [Hin|Hin]; [discriminate|]); exact Hin. }
  destruct Hh as (tr & Hs & Hb). exists tr.
  split; [exact Hs|]. split; [|split; [|exact Hb]].
  - cbn [run step]. rewrite Hs. cbn [phase_of]. rewrite run_halted, app_nil_r.
    reflexivity.
  - pose proof (sends_setup cfg (at_setup w) (boot_globals cfg)) as H.
    rewrite Hs in H. exact H.
Qed.

Lemma C9_boot_then_scenario_A :
  Forall (fun sr => map name (fst sr) =
       ["m5stick_temp"; "m5stick_hum"; "m5stick_pressure";
        "m5stick_bat_volt"; "m5stick_bat_current"; "m5stick_bat_level"]%string)
    (sends ((setup_greeting debug_cfg setup_ok ++ setup_connected)
            ++ loop_trace debug_cfg (scenario_A 1000 0) (started debug_cfg) ++ []))
  /\ List.length (sends ((setup_greeting debug_cfg setup_ok ++ setup_connected)
            ++ loop_trace debug_cfg (scenario_A 1000 0) (started debug_cfg) ++ []))
     = 1%nat.
Proof.
  split; [|vm_compute; reflexivity].
  refine (proj2 (proj2 (C9_six_series_in_registration_order debug_cfg boot_then_A
            (Looping (loop_end debug_cfg (scenario_A 1000 0) (started debug_cfg)))
            _ _))).
  vm_compute. reflexivity.
Defined.

Lemma C8_no_wifi_at_startup :
  exists tr,
    setup debug_cfg setup_no_wifi (boot_globals debug_cfg) = Hang tr /\
    run debug_cfg [no_wifi; no_wifi; no_wifi] Booting = (Halted, tr) /\
    sends tr = [] /\
    ~ In banner tr.
Proof.
  apply (C8_failed_startup_halts_for_good debug_cfg no_wifi [no_wifi; no_wifi]).
  left. reflexivity.
Defined.

(** ** Several cycles in a row *)

Lemma cycles_cons cfg env rest g :
  cycles cfg (env :: rest) g =
  match loop cfg env g with
  | Ret _ g1 t1 => prepend t1 (cycles cfg rest g1)
  | Restart t1 => Restart t1
  | Hang t1 => Hang t1
  end.
Proof. cbn [cycles]. apply bind_unfold. Qed.

Lemma prepend_ret_inv {A} t (o : Outcome A) a g tr :
  prepend t o = Ret a g tr -> exists t', o = Ret a g t' /\ tr = t ++ t'.
Proof.
  destruct o as [a' g' t'|t'|t']; cbn [prepend]; intros H; try discriminate.
  injection H as -> -> <-. eexists; split; reflexivity.
Qed.

(** A run of cycles that returns is a first cycle that returns, followed by
    a run that returns. *)
Lemma cycles_cons_inv cfg env rest g g' tr :
  cycles cfg (env :: rest) g = Ret tt g' tr ->
  exists t', anomalous (pressure (sense env g)) = false /\
             cycles cfg rest (loop_end cfg env g) = Ret tt g' t' /\
             tr = loop_trace cfg env g ++ t'.
Proof.
  rewrite cycles_cons, loop_cases.
  destruct (anomalous _); [discriminate|].
  intros H. apply prepend_ret_inv in H. destruct H as (t' & H1 & H2).
  exists t'. auto.
Qed.

Lemma cycles_ready cfg envs : forall g g' tr,
  ready cfg g -> cycles cfg envs g = Ret tt g' tr -> ready cfg g'.
Proof.
  induction envs as [|env rest IH]; intros g g' tr Hr H.
  - cbn [cycles] in H. injection H as <- _. exact Hr.
  - apply cycles_cons_inv in H. destruct H as (t' & _ & H & _).
    eapply IH; [|exact H]. apply loop_end_ready, Hr.
Qed.

(** The global [pressure] after some cycles is the last value a successful
    read delivered, or what it was before when none succeeded. *)
Lemma cycles_pressure cfg envs : forall g g' tr acc d,
  pressure g = from_opt acc d ->
  cycles cfg envs g = Ret tt g' tr ->
  pressure g' = from_opt (fold_left keep_reading envs acc) d.
Proof.
  induction envs as [|env rest IH]; intros g g' tr acc d Hp H.
  - cbn [cycles] in H. injection H as <- _. exact Hp.
  - apply cycles_cons_inv in H. destruct H as (t' & _ & H & _).
    cbn [fold_left]. eapply IH; [|exact H].
    rewrite pressure_loop_end, pressure_sense. unfold keep_reading.
    destruct (qmp6988_update env); [reflexivity|exact Hp].
Qed.

Lemma zero_is_anomalous : anomalous (S754_zero false) = true.
Proof. vm_compute. reflexivity. Qed.

Lemma zero_fill env g :
  sht30_update env = None ->
  temp (sense env g) = S754_zero false /\ hum (sense env g) = S754_zero false.
Proof. unfold sense. intros ->. split; reflexivity. Qed.

(** C6.  Take the cycles since the last [setup()], all of them completed,
    and a further cycle in which [sht30.update()] fails and which is not cut
    short.  Then some pressure read since [setup()] has succeeded, the
    temperature and humidity samples handed to the send are exactly 0.0, and
    the pressure sample is the value of the most recent successful read; in
    particular, when this cycle's pressure read fails too, it is the value
    retained from before. *)
Theorem C6_zero_fill_and_retained_pressure
    cfg senv g0 tr0 hist g1 tr1 env g2 tr2 :
  setup cfg senv (boot_globals cfg) = Ret tt g0 tr0 ->
  cycles cfg hist g0 = Ret tt g1 tr1 ->
  sht30_update env = None ->
  loop cfg env g1 = Ret tt g2 tr2 ->
  exists p,
    last_read (hist ++ [env]) = Some p /\
    (qmp6988_update env = None -> last_read hist = Some p /\ pressure g1 = p) /\
    let holding r v :=
      mkTimeSeries 1 (series_name r) (PROM_LABELS cfg)
        [mkSample (getTimeMillis env) v] in
    sends tr2 =
      [([holding Ref_temperature (S754_zero false);
         holding Ref_humidity (S754_zero false);
         holding Ref_pressure (F64.of_float p);
         holding Ref_bat_volt (F64.of_int (getBatteryVoltage env));
         holding Ref_bat_current (F64.of_int (getBatteryCurrent env));
         holding Ref_bat_level (F64.of_int (getBatteryLevel env))],
        loop_res env g1)].
Proof.
  intros Hs Hc Hsht Hl.
  pose proof (setup_ready _ _ _ _ Hs) as Hr0.
  pose proof (cycles_ready _ _ _ _ _ Hr0 Hc) as Hr1.
  apply setup_started in Hs. subst g0.
  assert (Hp1 : pressure g1 = from_opt (last_read hist) (S754_zero false))
    by (apply (cycles_pressure cfg hist (started cfg) g1 tr1 None (S754_zero false));
        [reflexivity | exact Hc]).
  apply loop_ret_inv in Hl. destruct Hl as (Hok & _ & Ht).
  assert (Hp : pressure (sense env g1)
               = from_opt (last_read (hist ++ [env])) (S754_zero false)).
  { unfold last_read. rewrite fold_left_app. cbn [fold_left].
    rewrite pressure_sense. unfold keep_reading.
    destruct (qmp6988_update env); [reflexivity|exact Hp1]. }
  destruct (last_read (hist ++ [env])) as [p|] eqn:El; cbn [from_opt] in Hp.
  2: { rewrite Hp, zero_is_anomalous in Hok. discriminate. }
  exists p. split; [reflexivity|]. split.
  - intros Hq. unfold last_read in El. rewrite fold_left_app in El.
    cbn [fold_left] in El. unfold keep_reading at 1 in El. rewrite Hq in El.
    fold (last_read hist) in El. rewrite El in Hp1. split; [exact El|exact Hp1].
  - cbv zeta. rewrite Ht, sends_loop_trace, (loop_sent_ready cfg) by exact Hr1.
    destruct (zero_fill env g1 Hsht) as [Hz1 Hz2].
    unfold all_refs, one_sample. cbn [map sample_value].
    rewrite Hz1, Hz2, Hp. reflexivity.
Qed.

Lemma C6_both_sensors_down_after_scenario_A :
  let g1 := loop_end debug_cfg (scenario_A 1000 0) (started debug_cfg) in
  exists p,
    last_read ([scenario_A 1000 0] ++ [sensors_down 6000]) = Some p /\
    pressure g1 = p /\
    sends (loop_trace debug_cfg (sensors_down 6000) g1) =
      [(map (fun rv => mkTimeSeries 1 (series_name (fst rv)) (PROM_LABELS debug_cfg)
                         [mkSample 6000 (snd rv)])
            [(Ref_temperature, S754_zero false); (Ref_humidity, S754_zero false);
             (Ref_pressure, F64.of_float p); (Ref_bat_volt, F64.of_int 3850);
             (Ref_bat_current, F64.of_int (-120)); (Ref_bat_level, F64.of_int 76)],
        0)].
Proof.
  cbv zeta.
  assert (Hs : setup debug_cfg setup_ok (boot_globals debug_cfg)
               = Ret tt (started debug_cfg)
                   (setup_greeting debug_cfg setup_ok ++ setup_connected))
    by (rewrite setup_cases; reflexivity).
  assert (Hc : cycles debug_cfg [scenario_A 1000 0] (started debug_cfg)
               = Ret tt (loop_end debug_cfg (scenario_A 1000 0) (started debug_cfg))
                   (loop_trace debug_cfg (scenario_A 1000 0) (started debug_cfg) ++ []))
    by (rewrite cycles_cons, loop_full by (vm_compute; reflexivity); reflexivity).
  assert (Hl : loop debug_cfg (sensors_down 6000)
                 (loop_end debug_cfg (scenario_A 1000 0) (started debug_cfg))
               = Ret tt
                   (loop_end debug_cfg (sensors_down 6000)
                      (loop_end debug_cfg (scenario_A 1000 0) (started debug_cfg)))
                   (loop_trace debug_cfg (sensors_down 6000)
                      (loop_end debug_cfg (scenario_A 1000 0) (started debug_cfg))))
    by (apply loop_full; vm_compute; reflexivity).
  destruct (C6_zero_fill_and_retained_pressure _ _ _ _ _ _ _ _ _ _
              Hs Hc (eq_refl : sht30_update (sensors_down 6000) = None) Hl)
    as (p & H1 & H2 & H3).
  exists p. split; [exact H1|]. split; [exact (proj2 (H2 eq_refl))|]. exact H3.
Defined.

(** ** The failure counter *)

Lemma wrap_int_small z : INT_MIN <= z <= INT_MAX -> wrap_int z = z.
Proof.
  unfold INT_MIN, INT_MAX, wrap_int. intros H.
  rewrite Z.mod_small by lia. lia.
Qed.

Lemma tally_all_failures rs : forall c,
  Forall (fun r => r <> 0) rs ->
  0 <= c -> c + Z.of_nat (List.length rs) <= INT_MAX ->
  tally_all c rs = c + Z.of_nat (List.length rs).
Proof.
  unfold tally_all.
  induction rs as [|r rs IH]; intros c Hf Hc Hb; cbn [fold_left List.length] in *.
  - lia.
  - inversion Hf as [|? ? Hr Hrs]; subst.
    unfold tally at 2. destruct (Z.eqb_spec r 0) as [|_]; [contradiction|].
    rewrite wrap_int_small by (unfold INT_MIN, INT_MAX in *; lia).
    rewrite IH by (try assumption; lia). lia.
Qed.

Lemma tally_all_after_success before fails c :
  Forall (fun r => r <> 0) fails ->
  Z.of_nat (List.length fails) <= INT_MAX ->
  tally_all c (before ++ 0 :: fails) = Z.of_nat (List.length fails).
Proof.
  intros Hf Hb. unfold tally_all. rewrite fold_left_app. cbn [fold_left].
  unfold tally at 2. cbn [Z.eqb].
  apply (tally_all_failures fails 0 Hf); lia.
Qed.

Lemma send_results_app tr tr' :
  send_results (tr ++ tr') = send_results tr ++ send_results tr'.
Proof. unfold send_results. rewrite sends_app. apply map_app. Qed.

Lemma send_results_loop_trace cfg env g :
  send_results (loop_trace cfg env g) = [loop_res env g].
Proof. unfold send_results. rewrite sends_loop_trace. reflexivity. Qed.

(** Each completed cycle contributes one answer, and with the debug display
    on the counter is the tally of the answers. *)
Lemma cycles_count cfg envs : forall g g' tr,
  cycles cfg envs g = Ret tt g' tr ->
  List.length (send_results tr) = List.length envs /\
  upload_fail_count g' =
    if show_debug_info cfg
    then tally_all (upload_fail_count g) (send_results tr)
    else upload_fail_count g.
Proof.
  induction envs as [|env rest IH]; intros g g' tr H.
  - cbn [cycles] in H. injection H as <- <-.
    destruct (show_debug_info cfg); split; reflexivity.
  - apply cycles_cons_inv in H. destruct H as (t' & _ & H & ->).
    apply IH in H. destruct H as [Hlen Hc].
    rewrite send_results_app, send_results_loop_trace. cbn [app List.length].
    split; [rewrite Hlen; reflexivity|].
    rewrite Hc, count_loop_end.
    destruct (show_debug_info cfg); reflexivity.
Qed.

(** C3 (as amended).  Line 175 puts the bookkeeping of the counter inside
    the debug display block.  With [LCD_SHOW_DEBUG_INFO] set to 1: after a
    successful send followed by N failed sends the counter is N (so 0 right
    after a success), and N failed sends from a counter of 0 leave N, for N
    within the range of [int].  With any other setting the counter is never
    written. *)
Theorem C3_counter_kept_only_with_debug_display cfg envs g g' tr :
  cycles cfg envs g = Ret tt g' tr ->
  List.length (send_results tr) = List.length envs /\
  (show_debug_info cfg = true ->
     (forall before fails,
        send_results tr = before ++ 0 :: fails ->
        Forall (fun r => r <> 0) fails ->
        Z.of_nat (List.length fails) <= INT_MAX ->
        upload_fail_count g' = Z.of_nat (List.length fails)) /\
     (upload_fail_count g = 0 ->
        Forall (fun r => r <> 0) (send_results tr) ->
        Z.of_nat (List.length (send_results tr)) <= INT_MAX ->
        upload_fail_count g' = Z.of_nat (List.length (send_results tr)))) /\
  (show_debug_info cfg = false -> upload_fail_count g' = upload_fail_count g).
Proof.
  intros H. apply cycles_count in H. destruct H as [Hlen Hc].
  split; [exact Hlen|]. split.
  - intros Hd. rewrite Hd in Hc. split.
    + intros before fails Hr Hf Hb. rewrite Hc, Hr.
      apply tally_all_after_success; assumption.
    + intros H0 Hf Hb. rewrite Hc, H0.
      rewrite tally_all_failures by (try assumption; lia). lia.
  - intros Hd. rewrite Hd in Hc. exact Hc.
Qed.

Lemma cycles_full_cons cfg env rest g g' tr :
  anomalous (pressure (sense env g)) = false ->
  cycles cfg rest (loop_end cfg env g) = Ret tt g' tr ->
  cycles cfg (env :: rest) g = Ret tt g' (loop_trace cfg env g ++ tr).
Proof.
  intros Hok H. rewrite cycles_cons, (loop_full _ _ _ Hok), H. reflexivity.
Qed.

Lemma C3_success_then_two_failures :
  exists g' tr,
    cycles debug_cfg success_then_two_failures (started debug_cfg) = Ret tt g' tr /\
    send_results tr = [0; 7; 7] /\
    upload_fail_count g' = 2.
Proof.
  assert (E : exists g' tr,
             cycles debug_cfg success_then_two_failures (started debug_cfg)
             = Ret tt g' tr /\ send_results tr = [] ++ 0 :: [7; 7]).
  { eexists. eexists. split.
    - unfold success_then_two_failures.
      apply cycles_full_cons; [vm_compute; reflexivity|].
      apply cycles_full_cons; [vm_compute; reflexivity|].
      apply cycles_full_cons; [vm_compute; reflexivity|].
      reflexivity.
    - vm_compute. reflexivity. }
  destruct E as (g' & tr & Hc & Hr). exists g', tr.
  split; [exact Hc|]. split; [exact Hr|].
  refine (proj1 (proj1 (proj2
    (C3_counter_kept_only_with_debug_display debug_cfg _ _ _ _ Hc)) eq_refl)
    [] [7; 7] Hr _ _).
  - repeat constructor; discriminate.
  - vm_compute. discriminate.
Defined.

(** C3, counterexample.  With the debug display off, a cycle whose send
    fails with code 7 leaves the counter at 0: the failed send was not
    counted. *)
Lemma C3_failed_send_not_counted_without_debug_display :
  show_debug_info quiet_cfg = false /\
  loop quiet_cfg (scenario_A 1000 7) (started quiet_cfg)
    = Ret tt (loop_end quiet_cfg (scenario_A 1000 7) (started quiet_cfg))
        (loop_trace quiet_cfg (scenario_A 1000 7) (started quiet_cfg)) /\
  send_results (loop_trace quiet_cfg (scenario_A 1000 7) (started quiet_cfg)) = [7] /\
  upload_fail_count (started quiet_cfg) = 0 /\
  upload_fail_count (loop_end quiet_cfg (scenario_A 1000 7) (started quiet_cfg)) = 0 /\
  upload_fail_count (loop_end quiet_cfg (scenario_A 1000 7) (started quiet_cfg)) <> 1.
Proof.
  split; [reflexivity|].
  split; [apply loop_full; vm_compute; reflexivity|].
  split; [vm_compute; reflexivity|].
  split; [reflexivity|].
  split; [vm_compute; reflexivity|].
  vm_compute. discriminate.
Qed.

(** ** The debug display flag *)

Lemma hide_display_app tr tr' :
  hide_display (tr ++ tr') = hide_display tr ++ hide_display tr'.
Proof. apply filter_app. Qed.

Lemma hide_lcd_status cfg env res c : hide_display (lcd_status cfg env res c) = [].
Proof.
  unfold lcd_status, lcd_wifi, lcd_upload.
  destruct (show_debug_info cfg), (WiFi_connected env), (res =? 0); reflexivity.
Qed.

(** Without the calls to the display, the trace of a full cycle does not
    depend on the configuration. *)
Lemma hide_loop_trace cfg env g : hide_display (loop_trace cfg env g) = quiet_trace env g.
Proof.
  unfold loop_trace, quiet_trace, banner, serial_report, lcd_readings.
  cbn [app hide_display filter is_display negb].
  rewrite (hide_display_app (lcd_status _ _ _ _)), hide_lcd_status. reflexivity.
Qed.

Lemma sense_same env g g' :
  same_but_count g g' ->
  temp (sense env g) = temp (sense env g') /\
  hum (sense env g) = hum (sense env g') /\
  pressure (sense env g) = pressure (sense env g').
Proof.
  intros (_ & _ & Hp & _). rewrite !pressure_sense, Hp.
  repeat split; reflexivity.
Qed.

Lemma sample_value_same env g g' r :
  same_but_count g g' ->
  sample_value env (sense env g) r = sample_value env (sense env g') r.
Proof.
  intros H. destruct (sense_same env g g' H) as (Ht & Hh & Hp).
  destruct r; cbn [sample_value]; rewrite ?Ht, ?Hh, ?Hp; reflexivity.
Qed.

Lemma append_same env g g' r :
  same_but_count g g' ->
  deref (append_all env (sense env g)) r = deref (append_all env (sense env g')) r.
Proof.
  intros H. rewrite !deref_append_all, !deref_sense.
  rewrite (sample_value_same env g g' r H).
  destruct H as (_ & _ & _ & _ & Hd). rewrite Hd. reflexivity.
Qed.

Lemma loop_sent_same env g g' :
  same_but_count g g' -> loop_sent env g = loop_sent env g'.
Proof.
  intros H. rewrite !loop_sent_eq.
  replace (req g') with (req g) by apply H.
  apply map_ext. intros r. apply append_same, H.
Qed.

Lemma quiet_trace_same env g g' :
  same_but_count g g' -> quiet_trace env g = quiet_trace env g'.
Proof.
  intros H. unfold quiet_trace, loop_res, serial_report.
  destruct (sense_same env g g' H) as (Ht & Hh & Hp).
  rewrite (loop_sent_same env g g' H), Ht, Hh, Hp. reflexivity.
Qed.

(** The flag and the counter have no part in the globals a cycle leaves,
    the counter itself apart. *)
Lemma loop_end_same cfg cfg' env g g' :
  same_but_count g g' ->
  same_but_count (loop_end cfg env g) (loop_end cfg' env g').
Proof.
  intros H. destruct (sense_same env g g' H) as (Ht & Hh & Hp).
  destruct (temp_hum_loop_end cfg env g) as [T1 H1].
  destruct (temp_hum_loop_end cfg' env g') as [T2 H2].
  unfold same_but_count.
  rewrite T1, T2, H1, H2, !pressure_loop_end, !req_loop_end.
  repeat split; try assumption; [apply H|].
  intros r. rewrite !deref_loop_end, (append_same env g g' r H). reflexivity.
Qed.

Lemma prepend_same t t' o o' :
  hide_display t = hide_display t' ->
  same_but_status o o' ->
  same_but_status (prepend t o) (prepend t' o').
Proof.
  intros Ht.
  destruct o as [[] g tr|tr|tr], o' as [[] g' tr'|tr'|tr'];
    cbn [same_but_status prepend]; try (intros []; fail).
  - intros [Hg Hr]. split; [exact Hg|]. rewrite !hide_display_app, Ht, Hr. reflexivity.
  - intros Hr. rewrite !hide_display_app, Ht, Hr. reflexivity.
  - intros Hr. rewrite !hide_display_app, Ht, Hr. reflexivity.
Qed.

Lemma loop_same cfg cfg' env g g' :
  same_but_count g g' ->
  same_but_status (loop cfg env g) (loop cfg' env g').
Proof.
  intros H. rewrite !loop_cases.
  destruct (sense_same env g g' H) as (_ & _ & Hp). rewrite Hp.
  destruct (anomalous _); cbn [same_but_status]; [reflexivity|].
  split; [apply loop_end_same, H|].
  rewrite !hide_loop_trace. apply quiet_trace_same, H.
Qed.

(** C4 (as amended).  [LCD_SHOW_DEBUG_INFO] gates the status lines and,
    with them, the bookkeeping of the failure counter, and nothing else.
    Two processes that receive the same answers, started from globals that
    agree except possibly on the counter, and configured differently, go
    through the same cycles: both restart or both continue, they make the
    same calls apart from those to the display (in particular they hand
    the same series to [client.send] and get the same answers), and their
    sensor values, request and series stay the same. *)
Theorem C4_flag_gates_status_and_counter_only cfg cfg' envs : forall g g',
  same_but_count g g' ->
  same_but_status (cycles cfg envs g) (cycles cfg' envs g').
Proof.
  induction envs as [|env rest IH]; intros g g' H.
  - cbn [cycles ret same_but_status]. split; [exact H|reflexivity].
  - rewrite !cycles_cons.
    pose proof (loop_same cfg cfg' env g g' H) as Hl.
    destruct (loop cfg env g) as [[] g1 t1|t1|t1],
             (loop cfg' env g') as [[] g1' t1'|t1'|t1'];
      cbn [same_but_status] in Hl; try contradiction; try exact Hl.
    destruct Hl as [Hg Ht]. apply prepend_same; [exact Ht|]. apply IH, Hg.
Qed.

Lemma C4_same_cycles_with_and_without_debug :
  same_but_status
    (cycles debug_cfg success_then_two_failures (started debug_cfg))
    (cycles quiet_cfg success_then_two_failures (started quiet_cfg)).
Proof.
  apply C4_flag_gates_status_and_counter_only.
  repeat split; reflexivity.
Defined.

(** C4, counterexample.  The same cycle, with a send that fails, run from
    the same globals with the flag on and with the flag off: the counter
    ends at 1 in one run and at 0 in the other. *)
Lemma C4_flag_changes_the_failure_counter :
  started debug_cfg = started quiet_cfg /\
  loop debug_cfg (scenario_A 1000 7) (started debug_cfg)
    = Ret tt (loop_end debug_cfg (scenario_A 1000 7) (started debug_cfg))
        (loop_trace debug_cfg (scenario_A 1000 7) (started debug_cfg)) /\
  loop quiet_cfg (scenario_A 1000 7) (started quiet_cfg)
    = Ret tt (loop_end quiet_cfg (scenario_A 1000 7) (started quiet_cfg))
        (loop_trace quiet_cfg (scenario_A 1000 7) (started quiet_cfg)) /\
  upload_fail_count (loop_end debug_cfg (scenario_A 1000 7) (started debug_cfg)) = 1 /\
  upload_fail_count (loop_end quiet_cfg (scenario_A 1000 7) (started quiet_cfg)) = 0.
Proof.
  split; [reflexivity|].
  split; [apply loop_full; vm_compute; reflexivity|].
  split; [apply loop_full; vm_compute; reflexivity|].
  split; vm_compute; reflexivity.
Qed.

(** ** The end-to-end scenarios of the specification, A and C *)

Example scenario_A_upload_complete :
  let o := loop debug_cfg (scenario_A 1000 0) (started debug_cfg) in
  o = Ret tt (loop_end debug_cfg (scenario_A 1000 0) (started debug_cfg))
        (loop_trace debug_cfg (scenario_A 1000 0) (started debug_cfg)) /\
  upload_fail_count (loop_end debug_cfg (scenario_A 1000 0) (started debug_cfg)) = 0 /\
  In (Display_printf "complete" []) (trace_of o) /\
  failures_shown (trace_of o) = [].
Proof.
  cbv zeta. rewrite loop_full by (vm_compute; reflexivity).
  split; [reflexivity|]. split; [vm_compute; reflexivity|].
  cbn [trace_of]. split; vm_compute; [tauto | reflexivity].
Qed.

Example scenario_C_three_failed_sends :
  let o := cycles debug_cfg [scenario_A 1000 7; scenario_A 6000 7; scenario_A 11000 7]
             (started debug_cfg) in
  failures_shown (trace_of o) = ["1"; "2"; "3"]%string /\
  send_results (trace_of o) = [7; 7; 7] /\
  exists g tr, o = Ret tt g tr /\ upload_fail_count g = 3 /\
               forall r, batch (deref g r) = [].
Proof.
  cbv zeta. split; [vm_compute; reflexivity|]. split; [vm_compute; reflexivity|].
  eexists. eexists. split.
  - apply cycles_full_cons; [vm_compute; reflexivity|].
    apply cycles_full_cons; [vm_compute; reflexivity|].
    apply cycles_full_cons; [vm_compute; reflexivity|].
    reflexivity.
  - split; [vm_compute; reflexivity|]. intros r. destruct r; vm_compute; reflexivity.
Qed.

(** ** Startup, further *)

(** X1.  A sensor that is not found does not stop [setup()]: it returns, with
    the six series registered, exactly when [transport.begin()] and
    [client.begin()] both succeed, and hangs otherwise. *)
Theorem setup_returns_iff_both_begin cfg env g :
  ((exists g' tr, setup cfg env g = Ret tt g' tr) <->
   transport_begin env = true /\ client_begin env = true) /\
  match setup cfg env g with
  | Ret _ g' _ => g' = register_all g
  | Restart _ => False
  | Hang _ => transport_begin env && client_begin env = false
  end.
Proof.
  rewrite setup_cases.
  destruct (transport_begin env), (client_begin env); (split; [split|reflexivity]);
    try (intros (g' & tr & H); discriminate);
    try (intros [H1 H2]; discriminate).
  - auto.
  - intros _. eexists. eexists. reflexivity.
Qed.

Lemma in_setup_greeting_connected cfg env :
  ~ In (Display_printf "Connected!" []) (setup_greeting cfg env).
Proof.
  unfold setup_greeting.
  destruct (qmp6988_begin env), (sht30_begin env); cbn [app In]; intros H;
    repeat (destruct H as [H|H]; [discriminate|]); exact H.
Qed.

(** X2.  The display says "Connected!" exactly when [transport.begin()]
    succeeded, also when [client.begin()] then fails and [setup()] hangs. *)
Theorem connected_shown_iff_transport_began cfg env g :
  In (Display_printf "Connected!" []) (trace_of (setup cfg env g)) <->
  transport_begin env = true.
Proof.
  rewrite setup_cases.
  destruct (transport_begin env); [destruct (client_begin env)|]; cbn [trace_of].
  - split; [reflexivity|]. intros _. apply in_or_app. right.
    unfold setup_connected. cbn [In]. auto.
  - split; [reflexivity|]. intros _. apply in_or_app. right.
    apply in_or_app. left. unfold setup_connected. cbn [In]. auto.
  - split; [|discriminate]. intros H. apply in_app_or in H.
    destruct H as [H|[H|[]]]; [|discriminate].
    exfalso. exact (in_setup_greeting_connected cfg env H).
Qed.

(** ** One cycle, further *)

Lemma sense_overwrites env t h g :
  sense env (with_sensors t h (pressure g) g) = sense env g.
Proof. reflexivity. Qed.

(** X3.  Temperature and humidity are not carried from one cycle to the next:
    whatever the two globals hold when a cycle starts, the cycle does the
    same, calls and final globals alike.  (The pressure is carried.) *)
Theorem temp_and_hum_not_carried_over cfg env g t h :
  loop cfg env (with_sensors t h (pressure g) g) = loop cfg env g.
Proof.
  rewrite !loop_cases.
  unfold loop_trace, loop_end, loop_res, loop_sent.
  rewrite !sense_overwrites.
  change (upload_fail_count (with_sensors t h (pressure g) g))
    with (upload_fail_count g).
  reflexivity.
Qed.

Lemma nan_passes : anomalous S754_nan = false.
Proof. vm_compute. reflexivity. Qed.

Lemma nth_pressure_sent cfg env g :
  ready cfg g ->
  pressure_sent (pressure (sense env g)) (loop_sent env g, loop_res env g).
Proof.
  intros Hr. unfold pressure_sent. cbn [fst].
  rewrite (loop_sent_ready cfg) by exact Hr.
  eexists. split; [reflexivity|]. split; reflexivity.
Qed.

(** X4.  A reading that is not a number gets past both tests of lines 132 and
    133: the cycle is not restarted, NaN is handed to the send as the
    pressure sample, and NaN is what the sketch retains. *)
Theorem nan_reading_is_sent_and_retained cfg env g :
  ready cfg g ->
  qmp6988_update env = Some S754_nan ->
  loop cfg env g = Ret tt (loop_end cfg env g) (loop_trace cfg env g) /\
  sends (loop_trace cfg env g) = [(loop_sent env g, loop_res env g)] /\
  pressure_sent S754_nan (loop_sent env g, loop_res env g) /\
  pressure (loop_end cfg env g) = S754_nan.
Proof.
  intros Hr Hq.
  assert (Hp : pressure (sense env g) = S754_nan)
    by (rewrite pressure_sense, Hq; reflexivity).
  split; [apply loop_full; rewrite Hp; exact nan_passes|].
  split; [apply (sends_loop_trace cfg)|].
  split; [rewrite <- Hp; apply (nth_pressure_sent cfg), Hr|].
  rewrite pressure_loop_end. exact Hp.
Qed.

Lemma nan_reading_after_setup :
  sends (loop_trace debug_cfg (nan_reading 1000) (started debug_cfg))
  = [(loop_sent (nan_reading 1000) (started debug_cfg), 0)]
  /\ pressure (loop_end debug_cfg (nan_reading 1000) (started debug_cfg)) = S754_nan.
Proof.
  pose proof (nan_reading_is_sent_and_retained debug_cfg (nan_reading 1000)
                (started debug_cfg) (ready_registered debug_cfg) eq_refl)
    as (_ & Hs & _ & Hp).
  split; [exact Hs | exact Hp].
Defined.

Lemma sample_value_loop_end cfg env g r :
  sample_value env (loop_end cfg env g) r = sample_value env (sense env g) r.
Proof.
  destruct (temp_hum_loop_end cfg env g) as [Ht Hh].
  destruct r; cbn [sample_value]; rewrite ?Ht, ?Hh, ?pressure_loop_end; reflexivity.
Qed.

(** X5.  What the display shows is what was sent: after a full cycle the three
    readings drawn on the screen are the globals [temp], [hum] and
    [pressure], and the samples handed to the send are their widenings to
    double (zero-filled values included). *)
Theorem display_shows_what_is_sent cfg env g g' tr :
  ready cfg g ->
  loop cfg env g = Ret tt g' tr ->
  In (Display_printf "  Temp: %2.1f  \r\n  Humi: %2.0f%%  \r\n  Pressure:%2.0f hPa\r\n"
        [AFloat (temp g'); AFloat (hum g');
         AFloat (F32.div (pressure g') (F32.of_int 100))]) tr /\
  sends tr = [(map (one_sample cfg (getTimeMillis env) (sample_value env g')) all_refs,
               loop_res env g)].
Proof.
  intros Hr H. apply loop_ret_inv in H. destruct H as (_ & Hg & Ht).
  destruct (temp_hum_loop_end cfg env g) as [T1 T2].
  split.
  - rewrite Ht, Hg, T1, T2, pressure_loop_end. unfold loop_trace.
    right. apply in_or_app. right. right. apply in_or_app. left.
    unfold lcd_readings. cbn [In]. auto 10.
  - rewrite Ht, sends_loop_trace, (loop_sent_ready cfg) by exact Hr.
    f_equal. f_equal. apply map_ext. intros r. unfold one_sample.
    rewrite Hg, sample_value_loop_end. reflexivity.
Qed.

Lemma display_shows_what_is_sent_scenario_A :
  sends (loop_trace debug_cfg (scenario_A 1000 0) (started debug_cfg))
  = [(map (one_sample debug_cfg 1000
             (sample_value (scenario_A 1000 0)
                (loop_end debug_cfg (scenario_A 1000 0) (started debug_cfg))))
          all_refs, 0)].
Proof.
  exact (proj2 (display_shows_what_is_sent debug_cfg (scenario_A 1000 0)
                  (started debug_cfg) _ _ (ready_registered debug_cfg)
                  (loop_full _ _ _ (scenario_A_passes 1000 0 debug_cfg)))).
Defined.

(** ** Several cycles, further *)

(** X6.  Once a pressure that passes the tests is retained, failed reads never
    lead to a restart: every cycle runs to its end, and each hands the same
    retained value to the send as its pressure sample. *)
Theorem retained_pressure_is_resent cfg envs : forall g,
  ready cfg g ->
  anomalous (pressure g) = false ->
  Forall (fun env => qmp6988_update env = None) envs ->
  exists g' tr,
    cycles cfg envs g = Ret tt g' tr /\
    pressure g' = pressure g /\
    List.length (sends tr) = List.length envs /\
    Forall (pressure_sent (pressure g)) (sends tr).
Proof.
  induction envs as [|env rest IH]; intros g Hr Hok Hall.
  - exists g, []. repeat split; constructor.
  - inversion Hall as [|? ? Hq Hrest]; subst.
    assert (Hp : pressure (sense env g) = pressure g)
      by (rewrite pressure_sense, Hq; reflexivity).
    assert (Hp' : pressure (loop_end cfg env g) = pressure g)
      by (rewrite pressure_loop_end; exact Hp).
    destruct (IH (loop_end cfg env g)) as (g' & tr & Hc & Hg' & Hlen & Hsent).
    + apply loop_end_ready, Hr.
    + rewrite Hp'. exact Hok.
    + exact Hrest.
    + exists g', (loop_trace cfg env g ++ tr).
      split; [apply cycles_full_cons; [rewrite Hp; exact Hok | exact Hc]|].
      split; [rewrite Hg'; exact Hp'|].
      rewrite sends_app, sends_loop_trace. cbn [app List.length].
      split; [rewrite Hlen; reflexivity|].
      constructor.
      * rewrite <- Hp. apply (nth_pressure_sent cfg), Hr.
      * rewrite <- Hp'. exact Hsent.
Qed.

Lemma retained_pressure_is_resent_after_scenario_A :
  let g := loop_end debug_cfg (scenario_A 1000 0) (started debug_cfg) in
  exists g' tr,
    cycles debug_cfg [sensors_down 6000; sensors_down 11000] g = Ret tt g' tr /\
    pressure g' = pressure g /\
    List.length (sends tr) = 2%nat /\
    Forall (pressure_sent (pressure g)) (sends tr).
Proof.
  cbv zeta.
  apply (retained_pressure_is_resent debug_cfg [sensors_down 6000; sensors_down 11000]).
  - apply loop_end_ready, ready_registered.
  - vm_compute. reflexivity.
  - repeat constructor.
Defined.

(** ** The process, further *)

Lemma run_cons cfg w ws ph :
  run cfg (w :: ws) ph =
  (fst (run cfg ws (fst (step cfg ph w))),
   snd (step cfg ph w) ++ snd (run cfg ws (fst (step cfg ph w)))).
Proof.
  cbn [run]. destruct (step cfg ph w) as [ph1 t1]. cbn [fst snd].
  destruct (run cfg ws ph1) as [ph2 t2]. reflexivity.
Qed.

Lemma fst_phase_of o :
  fst (phase_of o) =
  match o with
  | Ret _ g _ => Looping g
  | Restart _ => Booting
  | Hang _ => Halted
  end.
Proof. destruct o; reflexivity. Qed.

Lemma step_boot cfg w :
  step cfg Booting w =
  if transport_begin (at_setup w) && client_begin (at_setup w)
  then (Looping (started cfg),
        setup_greeting cfg (at_setup w) ++ setup_connected)
  else (Halted, trace_of (setup cfg (at_setup w) (boot_globals cfg))).
Proof.
  cbn [step]. rewrite setup_cases.
  destruct (transport_begin (at_setup w)); [destruct (client_begin (at_setup w))|];
    reflexivity.
Qed.

Lemma sends_step_boot cfg w : sends (snd (step cfg Booting w)) = [].
Proof. cbn [step]. rewrite snd_phase_of. apply sends_setup. Qed.

Lemma first_cycle_without_reading cfg env :
  qmp6988_update env = None ->
  loop cfg env (started cfg) = Restart [banner].
Proof.
  intros Hq. apply loop_restart. unfold anomalous.
  rewrite pressure_sense, Hq, started_pressure_low. reflexivity.
Qed.

Lemma step_without_reading cfg ph w :
  qmp6988_update (at_loop w) = None ->
  not_past_first_cycle cfg ph ->
  not_past_first_cycle cfg (fst (step cfg ph w)) /\ sends (snd (step cfg ph w)) = [].
Proof.
  intros Hq [H|[H|H]]; subst ph.
  - split; [|apply sends_step_boot].
    rewrite step_boot. unfold not_past_first_cycle.
    destruct (_ && _); cbn [fst]; auto.
  - cbn [step fst snd]. unfold not_past_first_cycle. auto.
  - cbn [step]. rewrite (first_cycle_without_reading cfg _ Hq).
    cbn [phase_of fst snd]. unfold not_past_first_cycle. auto.
Qed.

Lemma run_without_reading cfg ws : forall ph,
  Forall (fun w => qmp6988_update (at_loop w) = None) ws ->
  not_past_first_cycle cfg ph ->
  not_past_first_cycle cfg (fst (run cfg ws ph)) /\ sends (snd (run cfg ws ph)) = [].
Proof.
  induction ws as [|w ws IH]; intros ph Hall Hph.
  - cbn [run fst snd sends]. auto.
  - inversion Hall as [|? ? Hq Hrest]; subst.
    destruct (step_without_reading cfg ph w Hq Hph) as [H1 H2].
    destruct (IH _ Hrest H1) as [H3 H4].
    rewrite run_cons. cbn [fst snd]. rewrite sends_app, H2, H4. auto.
Qed.

(** X7.  A process whose pressure sensor never answers never sends anything: the
    first cycle after every [setup()] ends in a restart, so the process is
    only ever booting, halted, or about to run a first cycle. *)
Theorem no_pressure_reading_no_send cfg ws :
  Forall (fun w => qmp6988_update (at_loop w) = None) ws ->
  sends (snd (run cfg ws Booting)) = [] /\
  not_past_first_cycle cfg (fst (run cfg ws Booting)).
Proof.
  intros Hall.
  destruct (run_without_reading cfg ws Booting Hall) as [H1 H2].
  - left. reflexivity.
  - auto.
Qed.

Lemma run_after_failed_setup cfg w ws :
  transport_begin (at_setup w) = false \/ client_begin (at_setup w) = false ->
  fst (run cfg (w :: ws) Booting) = Halted /\
  sends (snd (run cfg (w :: ws) Booting)) = [].
Proof.
  intros Hfail. rewrite run_cons. cbn [fst snd].
  rewrite sends_app, sends_step_boot, step_boot.
  replace (transport_begin (at_setup w) && client_begin (at_setup w)) with false
    by (destruct Hfail as [H|H]; rewrite H; [|rewrite andb_false_r]; reflexivity).
  cbn [fst]. rewrite run_halted. auto.
Qed.

(** X8.  A restart is not always a recovery: when a cycle restarts on an
    implausible pressure and the [setup()] that follows cannot connect, the
    process halts for good, and nothing is sent from the restart on. *)
Theorem restart_into_failed_setup_halts cfg g w1 w2 ws :
  anomalous (pressure (sense (at_loop w1) g)) = true ->
  transport_begin (at_setup w2) = false \/ client_begin (at_setup w2) = false ->
  fst (run cfg (w1 :: w2 :: ws) (Looping g)) = Halted /\
  sends (snd (run cfg (w1 :: w2 :: ws) (Looping g))) = [].
Proof.
  intros Hbad Hfail. rewrite run_cons. cbn [step].
  rewrite (loop_restart _ _ _ Hbad). cbn [phase_of fst snd].
  destruct (run_after_failed_setup cfg w2 ws Hfail) as [H1 H2].
  rewrite H1, sends_app, H2. auto.
Qed.

Lemma no_pressure_reading_three_steps :
  sends (snd (run debug_cfg [no_reading; no_reading; no_reading] Booting)) = [] /\
  fst (run debug_cfg [no_reading; no_reading; no_reading] Booting)
  = Looping (started debug_cfg).
Proof.
  split; [|vm_compute; reflexivity].
  apply (no_pressure_reading_no_send debug_cfg [no_reading; no_reading; no_reading]).
  repeat constructor.
Defined.

Lemma restart_without_wifi_halts :
  fst (run debug_cfg [bad_reading; no_wifi; no_wifi]
         (Looping (loop_end debug_cfg (scenario_A 1000 0) (started debug_cfg))))
  = Halted.
Proof.
  refine (proj1 (restart_into_failed_setup_halts debug_cfg
                   (loop_end debug_cfg (scenario_A 1000 0) (started debug_cfg))
                   bad_reading no_wifi [no_wifi] _ _)).
  - vm_compute. reflexivity.
  - left. reflexivity.
Defined.

Lemma run_pressure_plausible cfg ws : forall ph,
  match ph with
  | Looping g => g = started cfg \/ anomalous (pressure g) = false
  | _ => True
  end ->
  match fst (run cfg ws ph) with
  | Looping g => g = started cfg \/ anomalous (pressure g) = false
  | _ => True
  end.
Proof.
  induction ws as [|w ws IH]; intros ph Hph; [exact Hph|].
  rewrite run_cons. cbn [fst]. apply IH.
  destruct ph as [| |g]; cbn [step].
  - rewrite fst_phase_of.
    destruct (setup cfg (at_setup w) (boot_globals cfg)) as [[] g tr|tr|tr] eqn:E;
      [|exact I|exact I].
    left. eapply setup_started, E.
  - exact I.
  - rewrite fst_phase_of, loop_cases.
    destruct (anomalous (pressure (sense (at_loop w) g))) eqn:E; [exact I|].
    right. rewrite pressure_loop_end. exact E.
Qed.

(** X9.  Between two cycles the retained pressure is either still the initial
    0.0, before the first cycle, or a value that passed both tests. *)
Theorem retained_pressure_initial_or_plausible cfg g :
  reachable cfg g -> g = started cfg \/ anomalous (pressure g) = false.
Proof.
  intros (ws & tr & H).
  pose proof (run_pressure_plausible cfg ws Booting I) as Hp.
  rewrite H in Hp. exact Hp.
Qed.

Lemma retained_pressure_after_scenario_A :
  loop_end debug_cfg (scenario_A 1000 0) (started debug_cfg) = started debug_cfg \/
  anomalous (pressure (loop_end debug_cfg (scenario_A 1000 0) (started debug_cfg)))
  = false.
Proof.
  apply (retained_pressure_initial_or_plausible debug_cfg).
  exists boot_then_A,
    ((setup_greeting debug_cfg setup_ok ++ setup_connected)
     ++ loop_trace debug_cfg (scenario_A 1000 0) (started debug_cfg) ++ []).
  vm_compute. reflexivity.
Defined.

(** ** The debug display, further *)

Lemma setup_greeting_no_status cfg env :
  Forall (fun e => is_status e = false) (setup_greeting cfg env).
Proof.
  unfold setup_greeting.
  destruct (qmp6988_begin env), (sht30_begin env); repeat constructor.
Qed.

Lemma setup_no_status cfg env g :
  Forall (fun e => is_status e = false) (trace_of (setup cfg env g)).
Proof.
  rewrite setup_cases.
  destruct (transport_begin env); [destruct (client_begin env)|]; cbn [trace_of];
    rewrite ?Forall_app; repeat split;
    try apply setup_greeting_no_status; repeat constructor.
Qed.

Lemma loop_no_status cfg env g :
  show_debug_info cfg = false ->
  Forall (fun e => is_status e = false) (trace_of (loop cfg env g)).
Proof.
  intros Hd. rewrite loop_cases.
  destruct (anomalous _); cbn [trace_of]; [repeat constructor|].
  unfold loop_trace, lcd_status. rewrite Hd.
  constructor; [reflexivity|].
  apply Forall_app. split; [repeat constructor|].
  constructor; [reflexivity|].
  apply Forall_app. split; repeat constructor.
Qed.

Lemma run_without_debug cfg ws : forall ph,
  show_debug_info cfg = false ->
  match ph with Looping g => upload_fail_count g = 0 | _ => True end ->
  Forall (fun e => is_status e = false) (snd (run cfg ws ph)) /\
  match fst (run cfg ws ph) with Looping g => upload_fail_count g = 0 | _ => True end.
Proof.
  induction ws as [|w ws IH]; intros ph Hd Hph.
  - cbn [run fst snd]. split; [constructor|exact Hph].
  - rewrite run_cons. cbn [fst snd].
    assert (Hs : Forall (fun e => is_status e = false) (snd (step cfg ph w)) /\
                 match fst (step cfg ph w) with
                 | Looping g => upload_fail_count g = 0
                 | _ => True
                 end).
    { destruct ph as [| |g]; cbn [step].
      - rewrite snd_phase_of, fst_phase_of. split; [apply setup_no_status|].
        destruct (setup cfg (at_setup w) (boot_globals cfg)) as [[] g tr|tr|tr] eqn:E;
          [|exact I|exact I].
        rewrite (setup_started _ _ _ _ E). reflexivity.
      - cbn [fst snd]. split; [constructor|exact I].
      - rewrite snd_phase_of, fst_phase_of. split; [apply loop_no_status, Hd|].
        rewrite loop_cases. destruct (anomalous _); [exact I|].
        rewrite count_loop_end, Hd. exact Hph. }
    destruct Hs as [Hs1 Hs2]. destruct (IH _ Hd Hs2) as [H1 H2].
    split; [apply Forall_app; split; assumption | exact H2].
Qed.

(** X10.  With [LCD_SHOW_DEBUG_INFO] not set to 1, a process never prints any of
    the WiFi or upload status texts, and its failure counter is 0 at the
    start of every cycle, whatever the sends answered. *)
Theorem without_debug_no_status_no_count cfg ws :
  show_debug_info cfg = false ->
  Forall (fun e => is_status e = false) (snd (run cfg ws Booting)) /\
  match fst (run cfg ws Booting) with
  | Looping g => upload_fail_count g = 0
  | _ => True
  end.
Proof. intros Hd. apply run_without_debug; [exact Hd|exact I]. Qed.

Lemma without_debug_three_failures :
  Forall (fun e => is_status e = false) (snd (run quiet_cfg boot_then_failures Booting)) /\
  send_results (snd (run quiet_cfg boot_then_failures Booting)) = [7; 7; 7] /\
  match fst (run quiet_cfg boot_then_failures Booting) with
  | Looping g => upload_fail_count g = 0
  | _ => True
  end.
Proof.
  pose proof (without_debug_no_status_no_count quiet_cfg boot_then_failures eq_refl)
    as [H1 H2].
  split; [exact H1|]. split; [vm_compute; reflexivity | exact H2].
Defined.

Lemma shown_counts_app tr tr' : shown_counts (tr ++ tr') = shown_counts tr ++ shown_counts tr'.
Proof. apply flat_map_app. Qed.

Lemma shown_counts_lcd_status cfg env res c :
  show_debug_info cfg = true ->
  shown_counts (lcd_status cfg env res c) = if res =? 0 then [] else [String_of_int c].
Proof.
  intros Hd. unfold lcd_status, lcd_wifi, lcd_upload. rewrite Hd.
  destruct (WiFi_connected env), (res =? 0); reflexivity.
Qed.

Lemma shown_counts_loop_trace cfg env g :
  show_debug_info cfg = true ->
  shown_counts (loop_trace cfg env g) =
  if loop_res env g =? 0 then []
  else [String_of_int (wrap_int (upload_fail_count g + 1))].
Proof.
  intros Hd. unfold loop_trace, banner, serial_report, lcd_readings.
  cbn [app]. unfold shown_counts at 1. cbn [flat_map shown_count app].
  fold (shown_counts (lcd_status cfg env (loop_res env g)
                        (upload_fail_count (loop_end cfg env g)) ++ [delay 5000])).
  rewrite shown_counts_app, (shown_counts_lcd_status _ _ _ _ Hd), count_loop_end, Hd.
  unfold tally. destruct (loop_res env g =? 0); reflexivity.
Qed.

(** X11.  With the debug display on, the number printed after "failed: " is the
    running count of failed sends since the last success: over any run of
    completed cycles the printed numbers follow the send answers, one number
    per failed send and none for a successful one. *)
Theorem shown_failures_follow_the_sends cfg envs : forall g g' tr,
  show_debug_info cfg = true ->
  cycles cfg envs g = Ret tt g' tr ->
  shown_counts tr = shown_tallies (upload_fail_count g) (send_results tr).
Proof.
  induction envs as [|env rest IH]; intros g g' tr Hd H.
  - cbn [cycles] in H. injection H as _ <-. reflexivity.
  - apply cycles_cons_inv in H. destruct H as (t' & _ & H & ->).
    rewrite shown_counts_app, send_results_app, send_results_loop_trace.
    rewrite (shown_counts_loop_trace _ _ _ Hd), (IH _ _ _ Hd H), count_loop_end, Hd.
    cbn [app shown_tallies]. unfold tally.
    destruct (loop_res env g =? 0); reflexivity.
Qed.

Lemma shown_failures_success_then_two_failures :
  exists g' tr,
    cycles debug_cfg success_then_two_failures (started debug_cfg) = Ret tt g' tr /\
    shown_counts tr = ["1"; "2"]%string.
Proof.
  assert (E : exists g' tr,
             cycles debug_cfg success_then_two_failures (started debug_cfg)
             = Ret tt g' tr /\ send_results tr = [0; 7; 7]).
  { eexists. eexists. split.
    - unfold success_then_two_failures.
      apply cycles_full_cons; [vm_compute; reflexivity|].
      apply cycles_full_cons; [vm_compute; reflexivity|].
      apply cycles_full_cons; [vm_compute; reflexivity|].
      reflexivity.
    - vm_compute. reflexivity. }
  destruct E as (g' & tr & Hc & Hr). exists g', tr. split; [exact Hc|].
  rewrite (shown_failures_follow_the_sends debug_cfg _ _ _ _ eq_refl Hc), Hr.
  vm_compute. reflexivity.
Defined.

(** ** The band the anomaly test lets through *)

Lemma all_between_spec fuel P : forall lo hi,
  all_between fuel P lo hi = true -> forall z, lo <= z <= hi -> P z = true.
Proof.
  induction fuel as [|f IH]; intros lo hi H z Hz; cbn [all_between] in H.
  - apply Z.ltb_lt in H. lia.
  - destruct (Z.ltb_spec hi lo); [lia|].
    destruct (Z.eqb_spec lo hi) as [->|Hne].
    + replace z with hi by lia. exact H.
    + apply andb_prop in H. destruct H as [H1 H2].
      pose proof (Z.div_mod (lo + hi) 2 ltac:(lia)).
      pose proof (Z.mod_pos_bound (lo + hi) 2 ltac:(lia)).
      destruct (Z_le_gt_dec z ((lo + hi) / 2)).
      * apply (IH _ _ H1). lia.
      * apply (IH _ _ H2). lia.
Qed.

Lemma whole_hPa_band_checked :
  all_between 20
    (fun h => Bool.eqb (whole_hPa_passes h) ((10 <=? h) && (h <=? 1200))) 0 3000
  = true.
Proof. vm_compute. reflexivity. Qed.

Lemma whole_hPa_anomalous h :
  0 <= h <= 3000 ->
  anomalous (F32.of_int (100 * h)) = negb ((10 <=? h) && (h <=? 1200)).
Proof.
  intros Hh.
  pose proof (all_between_spec _ _ _ _ whole_hPa_band_checked h Hh) as H.
  cbv beta in H. apply Bool.eqb_prop in H. unfold whole_hPa_passes in H.
  rewrite <- H. symmetry. apply negb_involutive.
Qed.

(** X12.  On pressure readings of a whole number of hPa from 0 to 3000, the
    cycle ends in a restart exactly below 10 hPa and above 1200 hPa: the
    test of line 132 compares the reading in Pa with 950, so it only
    catches readings under 10 hPa. *)
Theorem whole_hPa_band cfg env g h :
  0 <= h <= 3000 ->
  qmp6988_update env = Some (F32.of_int (100 * h)) ->
  ((exists tr, loop cfg env g = Restart tr) <-> h < 10 \/ 1200 < h).
Proof.
  intros Hh Hq. rewrite loop_cases, pressure_sense, Hq, (whole_hPa_anomalous h Hh).
  destruct (Z.leb_spec 10 h), (Z.leb_spec h 1200); cbn [andb negb];
    split; intros Hr; try lia; try (eexists; reflexivity);
    destruct Hr as [tr Hr]; discriminate.
Qed.

Lemma whole_hPa_band_at_900 :
  (exists tr, loop debug_cfg (mkLoopEnv 1000 (Some (F32.of_int (100 * 900))) None
                                3850 (-120) 76 (fun _ => 0) true)
                (started debug_cfg) = Restart tr)
  <-> 900 < 10 \/ 1200 < 900.
Proof.
  apply (whole_hPa_band debug_cfg _ (started debug_cfg) 900); [lia | reflexivity].
Defined.

(** ** What does not stop a cycle *)

Lemma sense_with_wifi b env g : sense (with_wifi b env) g = sense env g.
Proof. reflexivity. Qed.

Lemma loop_sent_with_wifi b env g : loop_sent (with_wifi b env) g = loop_sent env g.
Proof.
  rewrite !loop_sent_eq, sense_with_wifi.
  apply map_ext. intros r. rewrite !deref_append_all. reflexivity.
Qed.

Lemma loop_res_with_wifi b env g : loop_res (with_wifi b env) g = loop_res env g.
Proof. unfold loop_res. rewrite loop_sent_with_wifi. reflexivity. Qed.

Lemma deref_eq_globals g g' :
  temp g = temp g' -> hum g = hum g' -> pressure g = pressure g' ->
  upload_fail_count g = upload_fail_count g' -> req g = req g' ->
  (forall r, deref g r = deref g' r) -> g = g'.
Proof.
  destruct g as [t h p c q s1 s2 s3 s4 s5 s6], g' as [t' h' p' c' q' s1' s2' s3' s4' s5' s6'].
  cbn [temp hum pressure upload_fail_count req].
  intros -> -> -> -> -> H.
  pose proof (H Ref_temperature) as H1. pose proof (H Ref_humidity) as H2.
  pose proof (H Ref_pressure) as H3. pose proof (H Ref_bat_volt) as H4.
  pose proof (H Ref_bat_current) as H5. pose proof (H Ref_bat_level) as H6.
  cbn [deref ts_m5stick_temperature ts_m5stick_humidity ts_m5stick_pressure
       ts_m5stick_bat_volt ts_m5stick_bat_current ts_m5stick_bat_level] in *.
  subst. reflexivity.
Qed.

Lemma loop_end_with_wifi cfg b env g :
  loop_end cfg (with_wifi b env) g = loop_end cfg env g.
Proof.
  destruct (temp_hum_loop_end cfg (with_wifi b env) g) as [T1 H1].
  destruct (temp_hum_loop_end cfg env g) as [T2 H2].
  apply deref_eq_globals.
  - rewrite T1, T2, sense_with_wifi. reflexivity.
  - rewrite H1, H2, sense_with_wifi. reflexivity.
  - rewrite !pressure_loop_end, sense_with_wifi. reflexivity.
  - rewrite !count_loop_end, loop_res_with_wifi. reflexivity.
  - rewrite !req_loop_end. reflexivity.
  - intros r. rewrite !deref_loop_end, !deref_append_all, sense_with_wifi. reflexivity.
Qed.

(** X13.  The WiFi status is only displayed: whatever [WiFi.status()] answers,
    the cycle takes the same course, ends in the same globals (failure
    counter included) and makes the same calls apart from those to the
    display; in particular the send is attempted while "Not connected!" is
    shown. *)
Theorem wifi_status_is_only_displayed cfg env g b :
  match loop cfg (with_wifi b env) g, loop cfg env g with
  | Ret _ g1 t1, Ret _ g2 t2 => g1 = g2 /\ hide_display t1 = hide_display t2
  | Restart t1, Restart t2 => t1 = t2
  | _, _ => False
  end.
Proof.
  rewrite !loop_cases, sense_with_wifi.
  destruct (anomalous _); [reflexivity|].
  split; [apply loop_end_with_wifi|].
  rewrite !hide_loop_trace. unfold quiet_trace.
  rewrite sense_with_wifi, loop_sent_with_wifi, loop_res_with_wifi. reflexivity.
Qed.

(** X14.  Neither a failed send, nor a failed humidity and temperature read, nor
    a lost WiFi connection ever stops the loop: as long as every pressure
    read succeeds with a value that passes the two tests, every cycle runs
    to its end and makes its one send attempt. *)
Theorem plausible_readings_keep_the_loop_running cfg envs : forall g,
  Forall plausible_reading envs ->
  exists g' tr,
    cycles cfg envs g = Ret tt g' tr /\
    List.length (sends tr) = List.length envs.
Proof.
  induction envs as [|env rest IH]; intros g Hall.
  - exists g, []. split; reflexivity.
  - inversion Hall as [|? ? (p & Hq & Hp) Hrest]; subst.
    destruct (IH (loop_end cfg env g) Hrest) as (g' & tr & Hc & Hlen).
    exists g', (loop_trace cfg env g ++ tr). split.
    + apply cycles_full_cons; [|exact Hc]. rewrite pressure_sense, Hq. exact Hp.
    + rewrite sends_app, sends_loop_trace. cbn [app List.length].
      rewrite Hlen. reflexivity.
Qed.

Lemma failing_sends_keep_the_loop_running :
  exists g' tr,
    cycles debug_cfg success_then_two_failures (started debug_cfg) = Ret tt g' tr /\
    List.length (sends tr) = 3%nat.
Proof.
  apply (plausible_readings_keep_the_loop_running debug_cfg success_then_two_failures).
  repeat constructor; (exists (F32.of_int 101500); split; [reflexivity|]);
    vm_compute; reflexivity.
Defined.
